(** * goCep-k8s: the cache-aside CEP lookup of [internal/cep/service.go]

    The service is embedded as a program over the calls it makes to its
    collaborators (the SQL cache table, the ViaCEP HTTP client, the clock and
    the logger).  A program is a tree of calls; a handler gives every call a
    reply and threads its own world through the run, and the run records the
    calls in the order they were made.  The statements below quantify over
    all handlers, hence over every behaviour of the database, of the provider
    and of the clock. *)

From Stdlib Require Import ZArith Lia Bool Ascii String DecimalString.
From stdpp Require Import base option list strings gmap.

Local Open Scope string_scope.
Local Open Scope Z_scope.

(** ** Values of the Go runtime the service handles *)

(** [[]byte]: the serialized payload and the HTTP body. *)
Definition bytes := list Byte.byte.

(** [time.Duration]: a count of nanoseconds in an int64. *)
Definition Duration := Z.

Definition maxDuration : Duration := 2 ^ 63 - 1.
Definition minDuration : Duration := - 2 ^ 63.

(** [time.Time]: an instant (nanoseconds on the absolute scale) and the
    location it is presented in. *)
Inductive Location := Local | UTC.

Record Time := mkTime { instant : Z; location : Location }.

(** [t.Sub(u)]: the difference of the instants, clamped to the range of a
    Duration. *)
Definition time_Sub (t u : Time) : Duration :=
  let d := instant t - instant u in
  if maxDuration <? d then maxDuration
  else if d <? minDuration then minDuration
  else d.

(** [t.UTC()]: the same instant, presented in UTC. *)
Definition time_UTC (t : Time) : Time := mkTime (instant t) UTC.

(** ** Errors

    Go errors are values; the sentinels of the package and of [database/sql]
    are compared by identity, [fmt.Errorf] with [%w] wraps an error, and
    everything a collaborator reports (driver, transport, codec) is foreign to
    the package. *)
Inductive error : Type :=
| ErrInvalidCEP
| ErrNotFound
| sql_ErrNoRows
| ForeignError (msg : string)
| Errorf_w (prefix : string) (err : error)
| Errorf_d (prefix : string) (n : Z).

(** Identity of error values. *)
Fixpoint error_eqb (a b : error) : bool :=
  match a, b with
  | ErrInvalidCEP, ErrInvalidCEP => true
  | ErrNotFound, ErrNotFound => true
  | sql_ErrNoRows, sql_ErrNoRows => true
  | ForeignError m, ForeignError n => String.eqb m n
  | Errorf_w p x, Errorf_w q y => String.eqb p q && error_eqb x y
  | Errorf_d p m, Errorf_d q n => String.eqb p q && (m =? n)
  | _, _ => false
  end.

(** [%d] of an int. *)
Definition fmt_d (n : Z) : string := NilZero.string_of_int (Z.to_int n).

(** [err.Error()]. *)
Fixpoint error_string (e : error) : string :=
  match e with
  | ErrInvalidCEP => "invalid CEP: expected exactly 8 digits"
  | ErrNotFound => "cep not found"
  | sql_ErrNoRows => "sql: no rows in result set"
  | ForeignError msg => msg
  | Errorf_w prefix err => prefix +:+ ": " +:+ error_string err
  | Errorf_d prefix n => prefix +:+ " " +:+ fmt_d n
  end.

(** [errors.Is(err, target)]: [err] or an error it wraps is [target]. *)
Fixpoint errors_Is (err target : error) : bool :=
  if error_eqb err target then true
  else match err with
       | Errorf_w _ inner => errors_Is inner target
       | _ => false
       end.

(** ** The ViaCEP record *)

Record Response := mkResponse {
  Cep : string;
  Logradouro : string;
  Complemento : string;
  Bairro : string;
  Localidade : string;
  Uf : string;
  Ibge : string;
  Gia : string;
  DDD : string;
  Siafi : string;
  Unidade : string;
  Erro : bool
}.

(** [body.Cep = v]. *)
Definition set_Cep (v : string) (r : Response) : Response :=
  mkResponse v (Logradouro r) (Complemento r) (Bairro r) (Localidade r)
             (Uf r) (Ibge r) (Gia r) (DDD r) (Siafi r) (Unidade r) (Erro r).

(** ** Handles of the collaborators *)

(** [*sql.DB] and the [httpClient] interface value: the service only passes
    them on, their behaviour is the handler's. *)
Inductive sql_DB := DBConn (id : nat).
Inductive httpClient := Client (id : nat).

Record Logger := mkLogger { out : nat; prefix : string; flags : Z }.

(** [log.Writer()] of a fresh process is standard error; [log.LstdFlags]. *)
Definition log_Writer : nat := 2%nat.
Definition log_LstdFlags : Z := 3.
Definition log_New (w : nat) (p : string) (f : Z) : Logger := mkLogger w p f.

Record Request := mkRequest { Method : string; URL : string }.

Record HttpResponse := mkHttpResponse { StatusCode : Z; Body : bytes }.

Definition http_MethodGet : string := "GET".
Definition http_StatusNotFound : Z := 404.

(** ** Programs over collaborator calls *)

Inductive Call : Type :=
| DB_QueryRowScan (db : sql_DB) (query : string) (arg : string)
| DB_Exec (db : sql_DB) (query : string) (cep : string) (payload : bytes)
          (updated_at : Time)
| DB_Ping (db : sql_DB)
| HTTP_Do (c : httpClient) (req : Request)
| Time_Now
| Log_Printf (l : Logger) (line : string).

(** What each call hands back: [row.Scan] gives an error or the two scanned
    columns, [ExecContext] and [PingContext] an optional error, [Do] an error
    or a response. *)
Definition Reply (c : Call) : Type :=
  match c with
  | DB_QueryRowScan _ _ _ => error + (bytes * Time)
  | DB_Exec _ _ _ _ _ => option error
  | DB_Ping _ => option error
  | HTTP_Do _ _ => error + HttpResponse
  | Time_Now => Time
  | Log_Printf _ _ => unit
  end%type.

Inductive Prog (A : Type) : Type :=
| Ret (a : A)
| Vis (c : Call) (k : Reply c -> Prog A).

Arguments Ret {A} a.
Arguments Vis {A} c k.

Fixpoint bind {A B : Type} (m : Prog A) (f : A -> Prog B) : Prog B :=
  match m with
  | Ret a => f a
  | Vis c k => Vis c (fun r => bind (k r) f)
  end.

Definition call (c : Call) : Prog (Reply c) := Vis c Ret.

Notation "'let*' x ':=' m 'in' k" := (bind m (fun x => k))
  (at level 61, x pattern, m at next level, k at level 200).

(** A handler answers a call in a world and gives the next world. *)
Definition Handler (W : Type) : Type := forall c : Call, W -> Reply c * W.

(** The run of a program: its result, the final world and the calls made, in
    order. *)
Fixpoint run {W A : Type} (h : Handler W) (p : Prog A) (w : W)
  : A * W * list Call :=
  match p with
  | Ret a => (a, w, [])
  | Vis c k =>
      let '(r, w1) := h c w in
      let '(a, w2, tr) := run h (k r) w1 in
      (a, w2, c :: tr)
  end.

Definition result {W A : Type} (x : A * W * list Call) : A := x.1.1.
Definition world {W A : Type} (x : A * W * list Call) : W := x.1.2.
Definition trace {W A : Type} (x : A * W * list Call) : list Call := x.2.

(** Feed the run the handler's reply [H] to the call at its head. *)
Ltac reply H := cbn [run bind call]; rewrite H; cbn [run bind call].

(** ** Classifying calls *)

Definition is_provider_call (c : Call) : bool :=
  match c with HTTP_Do _ _ => true | _ => false end.

Definition is_store_write (c : Call) : bool :=
  match c with DB_Exec _ _ _ _ _ => true | _ => false end.

(** ** [normalizeCEP] and [formatCEP] *)

Definition is_digit (a : ascii) : bool :=
  (48 <=? nat_of_ascii a)%nat && (nat_of_ascii a <=? 57)%nat.

(** [strings.Map] with the digit-keeping mapping.  A Go string is a byte
    string; the bytes '0'..'9' are below 0x80, so the rune decoder yields each
    of them on its own, and every other rune (also the replacement rune of an
    ill-formed byte) is mapped to -1 and dropped: what is left is the digit
    bytes in their order. *)
Fixpoint onlyDigits (value : string) : string :=
  match value with
  | EmptyString => EmptyString
  | String a rest =>
      if is_digit a then String a (onlyDigits rest) else onlyDigits rest
  end.

Definition normalizeCEP (value : string) : error + string :=
  let digits := onlyDigits value in
  if Nat.eqb (String.length digits) 8 then inr digits else inl ErrInvalidCEP.

Definition formatCEP (value : string) : string :=
  if Nat.eqb (String.length value) 8
  then substring 0 5 value +:+ "-" +:+ substring 5 (String.length value - 5) value
  else value.

(** A string made of digits only. *)
Definition all_digits (value : string) : Prop := onlyDigits value = value.

(** ** The service *)

Record Service := mkService {
  db : sql_DB;
  client : httpClient;
  cacheTTL : Duration;
  logger : Logger;
  now : Prog Time;
  tableName : string
}.

(** [time.Now]: the ambient clock. *)
Definition time_Now : Prog Time := call Time_Now.

(** [NewService]: a nil logger is replaced by a standard one; the clock and
    the table name are not arguments. *)
Definition NewService (db : sql_DB) (client : httpClient)
    (cacheTTL : Duration) (logger : option Logger) : Service :=
  let logger :=
    match logger with
    | None => log_New log_Writer "" log_LstdFlags
    | Some l => l
    end in
  mkService db client cacheTTL logger time_Now "ceps".

Definition viaCepURL (cep : string) : string :=
  "https://viacep.com.br/ws/" +:+ cep +:+ "/json/".

Definition selectQuery (table : string) : string :=
  "SELECT payload, updated_at FROM " +:+ table +:+ " WHERE cep = $1".

Definition upsertQuery (table : string) : string :=
  "
		INSERT INTO " +:+ table +:+ " (cep, payload, updated_at)
		VALUES ($1, $2, $3)
		ON CONFLICT (cep)
		DO UPDATE SET payload = EXCLUDED.payload, updated_at = EXCLUDED.updated_at
	".

(** The two calls [Get] is told by: the select of the cache read and the
    warning of a failed write-back. *)
Definition warnLine (cepDigits : string) (err : error) : string :=
  "warn: failed to persist cep " +:+ cepDigits +:+ " cache: "
    +:+ error_string err.

Definition selectCall (s : Service) (key : string) : Call :=
  DB_QueryRowScan (db s) (selectQuery (tableName s)) key.

Definition warnCall (s : Service) (key : string) (e : error) : Call :=
  Log_Printf (logger s) (warnLine key e).

(** The functions of the Go libraries the service computes with: the JSON
    codec at type [Response] ([json.Marshal], [json.Unmarshal] into a zero
    record, [Decoder.Decode] of a body) and the request constructor. *)
Class GoRuntime := {
  json_Marshal : Response -> error + bytes;
  json_Unmarshal : bytes -> error + Response;
  json_Decode : bytes -> error + Response;
  http_NewRequestWithContext : string -> string -> error + Request
}.

Section Lookup.
Context {rt : GoRuntime}.

(** [s.cacheTTL > 0 && s.now().Sub(updatedAt) > s.cacheTTL]: the clock is
    read only when the TTL is positive. *)
Definition expired (s : Service) (updatedAt : Time) : Prog bool :=
  if 0 <? cacheTTL s
  then let* t := now s in Ret (cacheTTL s <? time_Sub t updatedAt)
  else Ret false.

Definition loadFromCache (s : Service) (cep : string)
  : Prog (error + option Response) :=
  let query := selectQuery (tableName s) in
  let* row := call (DB_QueryRowScan (db s) query cep) in
  match row with
  | inl err =>
      if errors_Is err sql_ErrNoRows then Ret (inr None) else Ret (inl err)
  | inr (payload, updatedAt) =>
      let* stale := expired s updatedAt in
      if stale then Ret (inr None)
      else match json_Unmarshal payload with
           | inl err => Ret (inl err)
           | inr resp => Ret (inr (Some resp))
           end
  end.

Definition saveToCache (s : Service) (cep : string) (data : Response)
  : Prog (option error) :=
  match json_Marshal data with
  | inl err => Ret (Some err)
  | inr payload =>
      let query := upsertQuery (tableName s) in
      let* t := now s in
      call (DB_Exec (db s) query cep payload (time_UTC t))
  end.

(** The deferred [resp.Body.Close()] acts on the response in hand only and
    is not recorded as a call. *)
Definition fetchFromViaCEP (s : Service) (cep : string)
  : Prog (error + Response) :=
  let url := viaCepURL cep in
  match http_NewRequestWithContext http_MethodGet url with
  | inl err => Ret (inl err)
  | inr req =>
      let* r := call (HTTP_Do (client s) req) in
      match r with
      | inl err => Ret (inl err)
      | inr resp =>
          if StatusCode resp =? http_StatusNotFound then Ret (inl ErrNotFound)
          else if 400 <=? StatusCode resp
          then Ret (inl (Errorf_d "viacep returned status" (StatusCode resp)))
          else match json_Decode (Body resp) with
               | inl err => Ret (inl err)
               | inr body =>
                   if Erro body then Ret (inl ErrNotFound)
                   else if String.eqb (Cep body) ""
                   then Ret (inr (set_Cep (formatCEP cep) body))
                   else Ret (inr body)
               end
      end
  end.

Definition Get (s : Service) (rawCEP : string) : Prog (error + Response) :=
  match normalizeCEP rawCEP with
  | inl _ => Ret (inl ErrInvalidCEP)
  | inr cepDigits =>
      let* cached := loadFromCache s cepDigits in
      match cached with
      | inl err => Ret (inl (Errorf_w "query cache" err))
      | inr (Some hit) => Ret (inr hit)
      | inr None =>
          let* fetched := fetchFromViaCEP s cepDigits in
          match fetched with
          | inl err => Ret (inl err)
          | inr fresh =>
              let* saved := saveToCache s cepDigits fresh in
              match saved with
              | Some err =>
                  let* _ := call (Log_Printf (logger s)
                                    (warnLine cepDigits err)) in
                  Ret (inr fresh)
              | None => Ret (inr fresh)
              end
          end
      end
  end.

Definition Ping (s : Service) : Prog (option error) := call (DB_Ping (db s)).

(** What [fetchFromViaCEP] makes of the provider's reply. *)
Definition classify (key : string) (reply : error + HttpResponse)
  : error + Response :=
  match reply with
  | inl err => inl err
  | inr resp =>
      if StatusCode resp =? http_StatusNotFound then inl ErrNotFound
      else if 400 <=? StatusCode resp
      then inl (Errorf_d "viacep returned status" (StatusCode resp))
      else match json_Decode (Body resp) with
           | inl err => inl err
           | inr body =>
               if Erro body then inl ErrNotFound
               else if String.eqb (Cep body) ""
               then inr (set_Cep (formatCEP key) body)
               else inr body
           end
  end.

(** A store write whose payload is the marshalled form of an unflagged
    record. *)
Definition stores_unflagged (c : Call) : Prop :=
  match c with
  | DB_Exec _ _ _ payload _ =>
      exists r, json_Marshal r = inr payload /\ Erro r = false
  | _ => True
  end.

(** A call that names the key: the select and the upsert carry it as their
    argument, the request is the one built from its URL. *)
Definition keyed (key : string) (c : Call) : Prop :=
  match c with
  | DB_QueryRowScan _ _ k => k = key
  | DB_Exec _ _ k _ _ => k = key
  | HTTP_Do _ req =>
      http_NewRequestWithContext http_MethodGet (viaCepURL key) = inr req
  | _ => True
  end.

End Lookup.

(** ** Doubles of the collaborators

    An in-memory cache table with upsert, switches that make the store's
    reads or writes fail, a wall clock, a log, and a provider that answers by
    URL and counts its calls as the stub client of the package's tests does. *)
Module Doubles.

Record World := mkWorld {
  table : gmap string (bytes * Time);
  read_fault : option error;
  write_fault : option error;
  wall : Time;
  calls : nat;
  logged : list string
}.

Definition upsert (key : string) (payload : bytes) (at_ : Time) (w : World)
  : World :=
  mkWorld (<[key := (payload, at_)]> (table w)) (read_fault w) (write_fault w)
          (wall w) (calls w) (logged w).

Definition count_call (w : World) : World :=
  mkWorld (table w) (read_fault w) (write_fault w) (wall w) (S (calls w))
          (logged w).

Definition append_log (line : string) (w : World) : World :=
  mkWorld (table w) (read_fault w) (write_fault w) (wall w) (calls w)
          (logged w ++ [line]).

Definition handler (provider : string -> error + HttpResponse)
  : Handler World :=
  fun c =>
    match c as c0 return World -> Reply c0 * World with
    | DB_QueryRowScan _ _ key => fun w =>
        match read_fault w with
        | Some e => (inl e, w)
        | None =>
            match table w !! key with
            | Some row => (inr row, w)
            | None => (inl sql_ErrNoRows, w)
            end
        end
    | DB_Exec _ _ key payload at_ => fun w =>
        match write_fault w with
        | Some e => (Some e, w)
        | None => (None, upsert key payload at_ w)
        end
    | DB_Ping _ => fun w => (read_fault w, w)
    | HTTP_Do _ req => fun w => (provider (URL req), count_call w)
    | Time_Now => fun w => (wall w, w)
    | Log_Printf _ line => fun w => (tt, append_log line w)
    end.

(** The records of the package's tests, one without a code and one flagged
    as unknown. *)
Definition ruaTeste : Response :=
  mkResponse "12345-678" "Rua Teste" "" "Centro" "Cidade" "ST" "0000000"
             "" "" "" "" false.

Definition ruaNova : Response :=
  mkResponse "76543-210" "Rua Nova" "" "Bairro" "Cidade" "ST" "1234567"
             "" "" "" "" false.

Definition semCep : Response :=
  mkResponse "" "Rua Nova" "" "Bairro" "Cidade" "ST" "1234567"
             "" "" "" "" false.

Definition naoEncontrado : Response :=
  mkResponse "" "" "" "" "" "" "" "" "" "" "" true.

Definition payloadOf (name : string) : bytes := list_byte_of_string name.

(** A codec on these fixtures only: a payload names its record, anything
    else is rejected as the real decoder rejects ill-formed JSON. *)
Definition decodeFixture (b : bytes) : error + Response :=
  let name := string_of_list_byte b in
  if String.eqb name "ruaTeste" then inr ruaTeste
  else if String.eqb name "ruaNova" then inr ruaNova
  else if String.eqb name "semCep" then inr semCep
  else if String.eqb name "comCep" then inr (set_Cep "11111-111" semCep)
  else if String.eqb name "naoEncontrado" then inr naoEncontrado
  else inl (ForeignError "invalid character").

Definition encodeFixture (r : Response) : error + bytes :=
  if String.eqb (Cep r) "12345-678" then inr (payloadOf "ruaTeste")
  else if String.eqb (Cep r) "76543-210" then inr (payloadOf "ruaNova")
  else if String.eqb (Cep r) "11111-111" then inr (payloadOf "comCep")
  else inl (ForeignError "json: unsupported value").

#[export] Instance fixtures : GoRuntime := {
  json_Marshal := encodeFixture;
  json_Unmarshal := decodeFixture;
  json_Decode := decodeFixture;
  http_NewRequestWithContext := fun m u => inr (mkRequest m u)
}.

Definition t0 : Time := mkTime 1700000000000000000 UTC.
Definition hour : Duration := 3600000000000.

Definition later (d : Duration) (t : Time) : Time :=
  mkTime (instant t + d) (location t).

(** A provider that knows one CEP with a full record, one whose record
    carries no code, one it flags as unknown, and answers 404, 500 or a
    transport error for the others. *)
Definition viaCep (url : string) : error + HttpResponse :=
  if String.eqb url (viaCepURL "76543210")
  then inr (mkHttpResponse 200 (payloadOf "ruaNova"))
  else if String.eqb url (viaCepURL "11111111")
  then inr (mkHttpResponse 200 (payloadOf "semCep"))
  else if String.eqb url (viaCepURL "00000000")
  then inr (mkHttpResponse 200 (payloadOf "naoEncontrado"))
  else if String.eqb url (viaCepURL "40400000")
  then inr (mkHttpResponse 404 [])
  else if String.eqb url (viaCepURL "50000000")
  then inr (mkHttpResponse 500 [])
  else inl (ForeignError "dial tcp: connection refused").

Definition pg : Handler World := handler viaCep.

Definition goodPayload : bytes := payloadOf "ruaTeste".
Definition badPayload : bytes := payloadOf "{".
Definition connReset : error := ForeignError "read tcp: connection reset by peer".
Definition diskFull : error := ForeignError "could not extend file: disk full".

(** The wall clock of every world below reads one hour after [t0]. *)
Definition emptyWorld : World :=
  mkWorld ∅ None None (later hour t0) 0 [].

Definition cachedWorld (payload : bytes) (written : Time) : World :=
  mkWorld {[ "12345678" := (payload, written) ]} None None (later hour t0)
          0 [].

Definition brokenReads (e : error) : World :=
  mkWorld ∅ (Some e) None (later hour t0) 0 [].

Definition brokenWrites (e : error) : World :=
  mkWorld ∅ None (Some e) (later hour t0) 0 [].

Definition svc (ttl : Duration) : Service :=
  NewService (DBConn 0) (Client 0) ttl None.

(** A service value whose clock field holds a fixed clock. *)
Definition frozen (t : Time) (ttl : Duration) : Service :=
  mkService (DBConn 0) (Client 0) ttl (log_New log_Writer "" log_LstdFlags)
            (Ret t) "ceps".

End Doubles.

(** ** Vocabulary for the statements on keys and records *)

(** A byte that is one of ['0'] .. ['9'], told by its code. *)
Definition digit_byte (c : ascii) : Prop :=
  (48 <= nat_of_ascii c <= 57)%nat.

(** A string of exactly 8 bytes, each a digit. *)
Definition eight_digits (key : string) : Prop :=
  String.length key = 8%nat
  /\ Forall digit_byte (list_ascii_of_string key).

(** Every field of a record but its code, in the order of the struct. *)
Definition fields_but_Cep (r : Response)
  : string * string * string * string * string * string * string * string
    * string * string * bool :=
  (Logradouro r, Complemento r, Bairro r, Localidade r, Uf r, Ibge r, Gia r,
   DDD r, Siafi r, Unidade r, Erro r).

(** ** More ways to tell calls apart *)

Definition is_store_read (c : Call) : bool :=
  match c with DB_QueryRowScan _ _ _ => true | _ => false end.

Definition is_ping (c : Call) : bool :=
  match c with DB_Ping _ => true | _ => false end.

Definition is_clock_call (c : Call) : bool :=
  match c with Time_Now => true | _ => false end.

Definition is_log_call (c : Call) : bool :=
  match c with Log_Printf _ _ => true | _ => false end.

(** The call a program starts with, if it makes one. *)
Definition first_call {A : Type} (p : Prog A) : option Call :=
  match p with
  | Ret _ => None
  | Vis c _ => Some c
  end.

(** How many calls of a kind a run holds. *)
Definition count (kind : Call -> bool) (tr : list Call) : nat :=
  length (List.filter kind tr).

(** A call on the service's own collaborators: its database handle with
    one of its two statements, its client, its logger; an upsert stamped in
    UTC; never a ping. *)
Definition own_call (s : Service) (c : Call) : Prop :=
  match c with
  | DB_QueryRowScan d q _ => d = db s /\ q = selectQuery (tableName s)
  | DB_Exec d q _ _ t =>
      d = db s /\ q = upsertQuery (tableName s) /\ location t = UTC
  | DB_Ping _ => False
  | HTTP_Do c _ => c = client s
  | Time_Now => True
  | Log_Printf l _ => l = logger s
  end.

(** ** [cmd/api/main.go]: configuration and HTTP handlers *)
Module Main.

Definition time_Second : Duration := 1000000000.
Definition time_Minute : Duration := 60 * time_Second.
Definition time_Hour : Duration := 60 * time_Minute.

Record config := mkConfig {
  httpAddr : string;
  dbDSN : string;
  cacheTTL : Duration;
  httpClientTimeout : Duration;
  readTimeout : Duration;
  writeTimeout : Duration;
  idleTimeout : Duration
}.

Record application := mkApplication {
  cfg : config;
  logger : Logger;
  db : sql_DB;
  service : Service
}.

(** *** [url.QueryEscape] *)

Definition upperhex (n : nat) : ascii :=
  nth n (list_ascii_of_string "0123456789ABCDEF") "0"%char.

Definition is_alnum (c : ascii) : bool :=
  let n := nat_of_ascii c in
  ((97 <=? n) && (n <=? 122) || (65 <=? n) && (n <=? 90)
   || (48 <=? n) && (n <=? 57))%nat.

Definition is_mark (c : ascii) : bool :=
  (Ascii.eqb c "-" || Ascii.eqb c "_" || Ascii.eqb c "." || Ascii.eqb c "~")%char.

(** [shouldEscape(c, encodeQueryComponent)]: everything but the unreserved
    characters, the reserved ones included. *)
Definition shouldEscape (c : ascii) : bool :=
  if is_alnum c then false
  else if is_mark c then false
  else true.

(** [escape(s, encodeQueryComponent)], byte by byte: a space becomes [+],
    any other byte to escape becomes [%] and two upper-case hex digits. *)
Fixpoint url_QueryEscape (s : string) : string :=
  match s with
  | EmptyString => EmptyString
  | String c rest =>
      if shouldEscape c
      then if Ascii.eqb c " "
           then String "+" (url_QueryEscape rest)
           else String "%"
                  (String (upperhex (Nat.div (nat_of_ascii c) 16))
                     (String (upperhex (Nat.modulo (nat_of_ascii c) 16))
                        (url_QueryEscape rest)))
      else String c (url_QueryEscape rest)
  end.

Definition buildDSN (host port user password database sslMode : string)
  : string :=
  let escapedUser := url_QueryEscape user in
  let escapedPassword := url_QueryEscape password in
  let escapedDatabase := url_QueryEscape database in
  "postgres://" +:+ escapedUser +:+ ":" +:+ escapedPassword +:+ "@"
    +:+ host +:+ ":" +:+ port +:+ "/" +:+ escapedDatabase
    +:+ "?sslmode=" +:+ sslMode.

(** *** The environment *)

(** [strings.TrimSpace] and [time.ParseDuration], as the Go library has
    them. *)
Class OsRuntime := {
  strings_TrimSpace : string -> string;
  time_ParseDuration : string -> error + Duration
}.

Definition incompleteDB : error :=
  ForeignError "DB_DSN não configurado e variáveis de banco incompletas".

Section Config.
Context {os : OsRuntime}.

(** [os.Getenv] is the argument [getenv]: an unset variable reads as the
    empty string. *)
Definition getEnvOrDefault (getenv : string -> string) (key fallback : string)
  : string :=
  let v := strings_TrimSpace (getenv key) in
  if negb (String.eqb v "") then v else fallback.

Definition parseDurationOrDefault (value : string) (fallback : Duration)
  : Duration :=
  let value := strings_TrimSpace value in
  if String.eqb value "" then fallback
  else match time_ParseDuration value with
       | inl _ => fallback
       | inr d => d
       end.

Definition set_dbDSN (dsn : string) (c : config) : config :=
  mkConfig (httpAddr c) dsn (cacheTTL c) (httpClientTimeout c)
           (readTimeout c) (writeTimeout c) (idleTimeout c).

(** [loadConfig] returns its configuration also beside an error. *)
Definition loadConfig (getenv : string -> string) : config * option error :=
  let cfg :=
    mkConfig (getEnvOrDefault getenv "HTTP_ADDR" ":8080")
             (strings_TrimSpace (getenv "DB_DSN"))
             (parseDurationOrDefault (getenv "CACHE_TTL") (24 * time_Hour))
             (parseDurationOrDefault (getenv "HTTP_CLIENT_TIMEOUT")
                (5 * time_Second))
             (15 * time_Second) (15 * time_Second) (60 * time_Second) in
  if negb (String.eqb (dbDSN cfg) "") then (cfg, None)
  else
    let host := strings_TrimSpace (getenv "DB_HOST") in
    let port := getEnvOrDefault getenv "DB_PORT" "5432" in
    let user := strings_TrimSpace (getenv "DB_USER") in
    let password := getenv "DB_PASSWORD" in
    let database := strings_TrimSpace (getenv "DB_NAME") in
    let sslMode := getEnvOrDefault getenv "DB_SSLMODE" "disable" in
    if String.eqb host "" || String.eqb user "" || String.eqb database ""
    then (cfg, Some incompleteDB)
    else (set_dbDSN (buildDSN host port user password database sslMode) cfg,
          None).

End Config.

(** *** Writing responses *)

(** What a handler hands to [writeJSON]: a [map[string]string] or the
    lookup's record. *)
Inductive Payload :=
| MapData (m : gmap string string)
| RecordData (r : Response).

(** [json.NewEncoder(w).Encode(data)] marshals the data, with a closing
    newline, before it writes. *)
Class JSONEncoder := {
  json_Encode : Payload -> error + bytes
}.

(** An [http.ResponseWriter]: the header map, the status once written, the
    bytes written, and whether the connection under it is broken (every
    write then fails with that error). *)
Record ResponseWriter := mkWriter {
  header : gmap string string;
  status : option Z;
  body : bytes;
  broken : option error
}.

Definition Header_Set (k v : string) (w : ResponseWriter) : ResponseWriter :=
  mkWriter (<[k := v]> (header w)) (status w) (body w) (broken w).

(** The header map once [writeJSON] has set the content type. *)
Definition jsonHeader (w : ResponseWriter) : gmap string string :=
  <["Content-Type" := "application/json; charset=utf-8"]> (header w).

(** The first [WriteHeader] counts, a later one is ignored. *)
Definition WriteHeader (code : Z) (w : ResponseWriter) : ResponseWriter :=
  match status w with
  | Some _ => w
  | None => mkWriter (header w) (Some code) (body w) (broken w)
  end.

(** [Write] sends status 200 first if none was written. *)
Definition Write (b : bytes) (w : ResponseWriter)
  : ResponseWriter * option error :=
  let w := WriteHeader 200 w in
  match broken w with
  | Some e => (w, Some e)
  | None =>
      (mkWriter (header w) (status w) (body w ++ b)%list (broken w), None)
  end.

Definition http_StatusOK : Z := 200.
Definition http_StatusBadRequest : Z := 400.
Definition http_StatusInternalServerError : Z := 500.
Definition http_StatusServiceUnavailable : Z := 503.

(** The logger behind [log.Printf]. *)
Definition log_std : Logger := log_New log_Writer "" log_LstdFlags.

Definition encodeFailureLine (err : error) : string :=
  "erro ao escrever resposta json: " +:+ error_string err.

Definition lookupFailureLine (cepValue : string) (err : error) : string :=
  "erro ao buscar cep " +:+ cepValue +:+ ": " +:+ error_string err.

Section Handlers.
Context {rt : GoRuntime} {enc : JSONEncoder}.

Definition Encode (w : ResponseWriter) (data : Payload)
  : ResponseWriter * option error :=
  match json_Encode data with
  | inl err => (w, Some err)
  | inr b => Write b w
  end.

Definition writeJSON (w : ResponseWriter) (code : Z) (data : Payload)
  : Prog ResponseWriter :=
  let w := Header_Set "Content-Type" "application/json; charset=utf-8" w in
  let w := WriteHeader code w in
  let '(w, err) := Encode w data in
  match err with
  | Some err =>
      let* _ := call (Log_Printf log_std (encodeFailureLine err)) in Ret w
  | None => Ret w
  end.

(** [cepValue] is the route variable [cep] of the request.  The deadline
    the handler puts on the context shows in what the collaborators reply,
    nowhere else. *)
Definition cepHandler (app : application) (w : ResponseWriter)
    (cepValue : string) : Prog ResponseWriter :=
  let* got := Get (service app) cepValue in
  match got with
  | inl err =>
      if errors_Is err ErrInvalidCEP
      then writeJSON w http_StatusBadRequest
             (MapData {[ "error" := error_string err ]})
      else if errors_Is err ErrNotFound
      then writeJSON w http_StatusNotFound
             (MapData {[ "error" := error_string err ]})
      else
        let* _ := call (Log_Printf (logger app)
                          (lookupFailureLine cepValue err)) in
        writeJSON w http_StatusInternalServerError
          (MapData {[ "error" := "falha ao consultar cep" ]})
  | inr found => writeJSON w http_StatusOK (RecordData found)
  end.

Definition healthHandler (app : application) (w : ResponseWriter)
  : Prog ResponseWriter :=
  let status : gmap string string := {[ "status" := "ok" ]} in
  let* err := Ping (service app) in
  match err with
  | Some err =>
      let status := <["status" := "error"]> status in
      let status := <["detail" := error_string err]> status in
      writeJSON w http_StatusServiceUnavailable (MapData status)
  | None => writeJSON w http_StatusOK (MapData status)
  end.

End Handlers.

(** *** Vocabulary for the statements on DSNs and responses *)

Fixpoint string_forallb (p : ascii -> bool) (s : string) : bool :=
  match s with
  | EmptyString => true
  | String c rest => p c && string_forallb p rest
  end.

(** Unreserved in a URL: letters, digits and the four marks. *)
Definition unreserved (c : ascii) : bool := is_alnum c || is_mark c.

(** What an escaped component is made of. *)
Definition url_safe (c : ascii) : bool :=
  (unreserved c || Ascii.eqb c "%" || Ascii.eqb c "+")%char.

(** The part of a string before the first occurrence of a byte (all of it
    when the byte does not occur) and the part after it. *)
Fixpoint before (sep : ascii) (s : string) : string :=
  match s with
  | EmptyString => EmptyString
  | String c rest =>
      if Ascii.eqb c sep then EmptyString else String c (before sep rest)
  end.

Fixpoint after (sep : ascii) (s : string) : string :=
  match s with
  | EmptyString => EmptyString
  | String c rest => if Ascii.eqb c sep then rest else after sep rest
  end.

(** The value of a hex digit, and the inverse of the escaping, used to show
    that escaping loses nothing. *)
Definition unhex (c : ascii) : nat :=
  let n := nat_of_ascii c in
  if (n <=? 57)%nat then (n - 48)%nat else (n - 55)%nat.

Fixpoint unescape (s : string) : string :=
  match s with
  | EmptyString => EmptyString
  | String c rest =>
      if Ascii.eqb c "+" then String " " (unescape rest)
      else if Ascii.eqb c "%" then
        match rest with
        | String hi (String lo rest') =>
            String (ascii_of_nat (unhex hi * 16 + unhex lo)) (unescape rest')
        | _ => EmptyString
        end
      else String c (unescape rest)
  end.

(** A writer no handler has written to yet, on a working connection. *)
Definition fresh (w : ResponseWriter) : Prop :=
  status w = None /\ broken w = None /\ body w = [].

End Main.

(** ** Doubles for the configuration and the handlers *)
Module MainDoubles.
Import Doubles.

(** The process environment as a finite map; an unset variable reads as the
    empty string, as with [os.Getenv]. *)
Definition os_Getenv (env : gmap string string) (key : string) : string :=
  default "" (env !! key).

(** Trimming of blanks and tabs at both ends: what [strings.TrimSpace] does
    on the values used here. *)
Definition is_blank (c : ascii) : bool :=
  (Ascii.eqb c " " || Ascii.eqb c "009")%char.

Fixpoint trimLeft (s : string) : string :=
  match s with
  | String c rest => if is_blank c then trimLeft rest else s
  | EmptyString => EmptyString
  end.

Definition reverse_string (s : string) : string :=
  string_of_list_ascii (rev (list_ascii_of_string s)).

Definition trim (s : string) : string :=
  reverse_string (trimLeft (reverse_string (trimLeft s))).

(** The durations used here, as [time.ParseDuration] reads them. *)
Definition parseFixture (s : string) : error + Duration :=
  if String.eqb s "1h" then inr Main.time_Hour
  else if String.eqb s "90s" then inr (90 * Main.time_Second)
  else if String.eqb s "0" then inr 0
  else inl (ForeignError "time: invalid duration").

#[export] Instance osFixtures : Main.OsRuntime := {
  Main.strings_TrimSpace := trim;
  Main.time_ParseDuration := parseFixture
}.

Definition envWithDSN : gmap string string :=
  {[ "DB_DSN" := "  postgres://app:secret@db:5432/cep?sslmode=disable ";
     "DB_HOST" := "ignored"; "CACHE_TTL" := "1h" ]}.

Definition envWithParts : gmap string string :=
  {[ "DB_HOST" := " db.internal "; "DB_USER" := "cep app";
     "DB_PASSWORD" := " p@ss:w/rd? "; "DB_NAME" := "cep"; "CACHE_TTL" := "soon" ]}.

Definition envWithoutUser : gmap string string :=
  {[ "DB_HOST" := "db.internal"; "DB_USER" := "   "; "DB_NAME" := "cep" ]}.

(** An encoder that renders a map as its [key=value] lines and a record by
    the fixture codec. *)
Definition renderMap (m : gmap string string) : string :=
  String.concat ";" (map (fun kv => kv.1 +:+ "=" +:+ kv.2) (map_to_list m)).

Definition encodeData (data : Main.Payload) : error + bytes :=
  match data with
  | Main.MapData m => inr (payloadOf (renderMap m))
  | Main.RecordData r => encodeFixture r
  end.

#[export] Instance encoderFixture : Main.JSONEncoder := {
  Main.json_Encode := encodeData
}.

Definition blank : Main.ResponseWriter := Main.mkWriter ∅ None [] None.

Definition appLogger : Logger := log_New 1%nat "[gocep] " 19.

Definition app (ttl : Duration) : Main.application :=
  Main.mkApplication
    (Main.mkConfig ":8080" "postgres://app:secret@db:5432/cep" ttl
       (5 * Main.time_Second) (15 * Main.time_Second)
       (15 * Main.time_Second) (60 * Main.time_Second))
    appLogger (DBConn 0)
    (NewService (DBConn 0) (Client 0) ttl (Some appLogger)).

End MainDoubles.

(** ** Facts on errors *)

Lemma error_eqb_eq (a b : error) : error_eqb a b = true <-> a = b.
Proof.
  revert b; induction a as [| | | m | p x IH | p m]; intros [| | | n | q y | q n];
    cbn; try (split; [discriminate | intros [=]]); try tauto.
  - rewrite String.eqb_eq. split; [intros -> | intros [= ->]]; reflexivity.
  - rewrite andb_true_iff, String.eqb_eq, IH.
    split; [intros [-> ->] | intros [= -> ->]]; auto.
  - rewrite andb_true_iff, String.eqb_eq, Z.eqb_eq.
    split; [intros [-> ->] | intros [= -> ->]]; auto.
Qed.

Lemma errors_Is_refl (e : error) : errors_Is e e = true.
Proof.
  destruct e; cbn [errors_Is];
    rewrite (proj2 (error_eqb_eq _ _) eq_refl); reflexivity.
Qed.

Lemma errors_Is_wrapped (p : string) (e target : error) :
  errors_Is e target = true -> errors_Is (Errorf_w p e) target = true.
Proof.
  intros H. cbn [errors_Is]. rewrite H.
  destruct (error_eqb (Errorf_w p e) target); reflexivity.
Qed.

Example fmt_d_500 : fmt_d 500 = "500".
Proof. reflexivity. Qed.

Example fmt_d_0 : fmt_d 0 = "0".
Proof. reflexivity. Qed.

Example fmt_d_neg : fmt_d (- 404) = "-404".
Proof. reflexivity. Qed.

(** ** Runs of composed programs *)

Lemma run_bind {W A B : Type} (h : Handler W) (m : Prog A) (f : A -> Prog B)
    (w : W) :
  run h (bind m f) w =
    let '(a, w1, t1) := run h m w in
    let '(b, w2, t2) := run h (f a) w1 in
    (b, w2, (t1 ++ t2)%list).
Proof.
  revert w; induction m as [a | c k IH]; intros w; cbn [bind run].
  - destruct (run h (f a) w) as [[b w2] t2]; reflexivity.
  - destruct (h c w) as [r w1]. rewrite IH.
    destruct (run h (k r) w1) as [[a w2] t1].
    destruct (run h (f a) w2) as [[b w3] t2]; reflexivity.
Qed.

(** ** Facts on digit strings *)

Lemma onlyDigits_idem (value : string) :
  onlyDigits (onlyDigits value) = onlyDigits value.
Proof.
  induction value as [| a rest IH]; cbn; [reflexivity |].
  destruct (is_digit a) eqn:Ha; cbn; [rewrite Ha, IH |]; auto.
Qed.

Lemma normalizeCEP_ok (value digits : string) :
  normalizeCEP value = inr digits <->
  digits = onlyDigits value /\ String.length digits = 8%nat.
Proof.
  unfold normalizeCEP.
  destruct (Nat.eqb (String.length (onlyDigits value)) 8) eqn:Hlen.
  - apply Nat.eqb_eq in Hlen. split.
    + intros [= <-]; auto.
    + intros [-> _]; reflexivity.
  - apply Nat.eqb_neq in Hlen. split; [discriminate |].
    intros [-> H]; contradiction.
Qed.

Lemma normalizeCEP_err (value : string) (e : error) :
  normalizeCEP value = inl e <->
  e = ErrInvalidCEP /\ String.length (onlyDigits value) <> 8%nat.
Proof.
  unfold normalizeCEP.
  destruct (Nat.eqb (String.length (onlyDigits value)) 8) eqn:Hlen.
  - apply Nat.eqb_eq in Hlen. split; [discriminate | intros [_ H]; contradiction].
  - apply Nat.eqb_neq in Hlen. split; [intros [= <-]; auto | intros [-> _]; auto].
Qed.

(** C9: normalizing the result of a successful normalization gives it back
    unchanged, an 8-digit string; more generally stripping the non-digits
    twice is stripping them once; ["12345-678"] normalizes to ["12345678"]
    and ["12-345"] is refused with the invalid-CEP error. *)
Theorem normalizeCEP_idempotent :
  (forall value digits : string,
      normalizeCEP value = inr digits ->
      normalizeCEP digits = inr digits /\ String.length digits = 8%nat
      /\ all_digits digits)
  /\ (forall value : string, onlyDigits (onlyDigits value) = onlyDigits value)
  /\ normalizeCEP "12345-678" = inr "12345678"
  /\ normalizeCEP "12-345" = inl ErrInvalidCEP.
Proof.
  repeat split; try reflexivity.
  - apply normalizeCEP_ok in H as [-> Hlen].
    apply normalizeCEP_ok. rewrite onlyDigits_idem; auto.
  - apply normalizeCEP_ok in H as [_ Hlen]; exact Hlen.
  - apply normalizeCEP_ok in H as [-> _]. apply onlyDigits_idem.
  - apply onlyDigits_idem.
Qed.

(** ** Runs of the service's steps *)

Section Runs.
Context {rt : GoRuntime} {W : Type} (h : Handler W).

Implicit Types (s : Service) (w : W) (e : error) (r : Response).

Lemma run_expired_off s (updatedAt : Time) w :
  cacheTTL s <= 0 -> run h (expired s updatedAt) w = (false, w, []).
Proof.
  intros Httl. unfold expired.
  destruct (0 <? cacheTTL s) eqn:E; [apply Z.ltb_lt in E; lia | reflexivity].
Qed.

Lemma run_expired_on s (updatedAt t : Time) w w1 (trn : list Call) :
  0 < cacheTTL s ->
  run h (now s) w = (t, w1, trn) ->
  run h (expired s updatedAt) w
  = (cacheTTL s <? time_Sub t updatedAt, w1, trn).
Proof.
  intros Httl Hnow. unfold expired.
  destruct (0 <? cacheTTL s) eqn:E; [| apply Z.ltb_ge in E; lia].
  rewrite run_bind, Hnow. cbn. rewrite app_nil_r. reflexivity.
Qed.

Lemma run_load_failed s key w w1 e :
  h (selectCall s key) w = (inl e, w1) ->
  run h (loadFromCache s key) w
  = (if errors_Is e sql_ErrNoRows then inr None else inl e, w1,
     [selectCall s key]).
Proof.
  intros Hrow. unfold loadFromCache, selectCall in *. reply Hrow.
  destruct (errors_Is e sql_ErrNoRows); reflexivity.
Qed.

Lemma run_load_row s key w w1 w2 (payload : bytes) (updatedAt : Time)
    (stale : bool) (trn : list Call) :
  h (selectCall s key) w = (inr (payload, updatedAt), w1) ->
  run h (expired s updatedAt) w1 = (stale, w2, trn) ->
  run h (loadFromCache s key) w
  = (if stale then inr None
     else match json_Unmarshal payload with
          | inl err => inl err
          | inr resp => inr (Some resp)
          end,
     w2, selectCall s key :: trn).
Proof.
  intros Hrow Hexp. unfold loadFromCache, selectCall in *. reply Hrow.
  rewrite run_bind, Hexp.
  destruct stale; [| destruct (json_Unmarshal payload)]; cbn;
    rewrite app_nil_r; reflexivity.
Qed.

Lemma run_fetch_norequest s key w e :
  http_NewRequestWithContext http_MethodGet (viaCepURL key) = inl e ->
  run h (fetchFromViaCEP s key) w = (inl e, w, []).
Proof. intros Hreq. unfold fetchFromViaCEP. rewrite Hreq. reflexivity. Qed.

Lemma run_fetch_request s key w w1 (req : Request)
    (reply : error + HttpResponse) :
  http_NewRequestWithContext http_MethodGet (viaCepURL key) = inr req ->
  h (HTTP_Do (client s) req) w = (reply, w1) ->
  run h (fetchFromViaCEP s key) w
  = (classify key reply, w1, [HTTP_Do (client s) req]).
Proof.
  intros Hreq Hdo. unfold fetchFromViaCEP, classify. rewrite Hreq. reply Hdo.
  destruct reply as [err | resp]; [reflexivity |].
  destruct (StatusCode resp =? http_StatusNotFound); [reflexivity |].
  destruct (400 <=? StatusCode resp); [reflexivity |].
  destruct (json_Decode (Body resp)) as [err | body]; [reflexivity |].
  destruct (Erro body); [reflexivity |].
  destruct (String.eqb (Cep body) ""); reflexivity.
Qed.

(** [Get] after normalization, step by step. *)
Lemma run_Get_invalid s raw w :
  String.length (onlyDigits raw) <> 8%nat ->
  run h (Get s raw) w = (inl ErrInvalidCEP, w, []).
Proof.
  intros Hlen. unfold Get.
  destruct (normalizeCEP raw) as [e | key] eqn:Hn; [reflexivity |].
  apply normalizeCEP_ok in Hn as [-> Hn]; contradiction.
Qed.

Lemma run_Get_load_error s raw key w w1 e (tr : list Call) :
  normalizeCEP raw = inr key ->
  run h (loadFromCache s key) w = (inl e, w1, tr) ->
  run h (Get s raw) w = (inl (Errorf_w "query cache" e), w1, tr).
Proof.
  intros Hn Hload. unfold Get. rewrite Hn, run_bind, Hload. cbn.
  rewrite app_nil_r; reflexivity.
Qed.

Lemma run_Get_hit s raw key w w1 r (tr : list Call) :
  normalizeCEP raw = inr key ->
  run h (loadFromCache s key) w = (inr (Some r), w1, tr) ->
  run h (Get s raw) w = (inr r, w1, tr).
Proof.
  intros Hn Hload. unfold Get. rewrite Hn, run_bind, Hload. cbn.
  rewrite app_nil_r; reflexivity.
Qed.

Lemma run_Get_fetch_error s raw key w w1 w2 e (tr1 tr2 : list Call) :
  normalizeCEP raw = inr key ->
  run h (loadFromCache s key) w = (inr None, w1, tr1) ->
  run h (fetchFromViaCEP s key) w1 = (inl e, w2, tr2) ->
  run h (Get s raw) w = (inl e, w2, (tr1 ++ tr2)%list).
Proof.
  intros Hn Hload Hfetch. unfold Get.
  rewrite Hn, run_bind, Hload, run_bind, Hfetch. cbn.
  rewrite app_nil_r; reflexivity.
Qed.

Lemma run_Get_saved s raw key w w1 w2 w3 r (tr1 tr2 tr3 : list Call) :
  normalizeCEP raw = inr key ->
  run h (loadFromCache s key) w = (inr None, w1, tr1) ->
  run h (fetchFromViaCEP s key) w1 = (inr r, w2, tr2) ->
  run h (saveToCache s key r) w2 = (None, w3, tr3) ->
  run h (Get s raw) w = (inr r, w3, (tr1 ++ tr2 ++ tr3)%list).
Proof.
  intros Hn Hload Hfetch Hsave. unfold Get.
  rewrite Hn, run_bind, Hload, run_bind, Hfetch, run_bind, Hsave. cbn.
  rewrite app_nil_r; reflexivity.
Qed.

Lemma run_Get_unsaved s raw key w w1 w2 w3 r e (tr1 tr2 tr3 : list Call) :
  normalizeCEP raw = inr key ->
  run h (loadFromCache s key) w = (inr None, w1, tr1) ->
  run h (fetchFromViaCEP s key) w1 = (inr r, w2, tr2) ->
  run h (saveToCache s key r) w2 = (Some e, w3, tr3) ->
  run h (Get s raw) w
  = (inr r, (h (warnCall s key e) w3).2,
     (tr1 ++ tr2 ++ tr3 ++ [warnCall s key e])%list).
Proof.
  intros Hn Hload Hfetch Hsave. unfold Get, warnCall.
  rewrite Hn, run_bind, Hload, run_bind, Hfetch, run_bind, Hsave.
  cbn [run bind call].
  destruct (h (Log_Printf (logger s) (warnLine key e)) w3) as [[] w4].
  reflexivity.
Qed.

End Runs.

Section Claims.
Context {rt : GoRuntime} {W : Type} (h : Handler W).

Implicit Types (s : Service) (w : W) (e : error) (r : Response).

(** On a miss the caller gets exactly what the provider fetch gives, and the
    fetch's calls follow the cache read's. *)
Lemma run_Get_miss s raw key w w1 (tr1 : list Call) :
  normalizeCEP raw = inr key ->
  run h (loadFromCache s key) w = (inr None, w1, tr1) ->
  result (run h (Get s raw) w) = result (run h (fetchFromViaCEP s key) w1)
  /\ exists rest : list Call,
      trace (run h (Get s raw) w)
      = (tr1 ++ trace (run h (fetchFromViaCEP s key) w1) ++ rest)%list.
Proof.
  intros Hn Hload.
  destruct (run h (fetchFromViaCEP s key) w1) as [[[e | r] w2] tr2] eqn:Hf.
  - rewrite (run_Get_fetch_error h _ _ _ _ _ _ _ _ _ Hn Hload Hf).
    split; [reflexivity | exists []; cbn; rewrite app_nil_r; reflexivity].
  - destruct (run h (saveToCache s key r) w2) as [[[e |] w3] tr3] eqn:Hs.
    + rewrite (run_Get_unsaved h _ _ _ _ _ _ _ _ _ _ _ _ Hn Hload Hf Hs).
      split; [reflexivity | eexists; reflexivity].
    + rewrite (run_Get_saved h _ _ _ _ _ _ _ _ _ _ _ Hn Hload Hf Hs).
      split; [reflexivity | eexists; reflexivity].
Qed.

(** The calls of each step, for a service on the ambient clock. *)
Lemma expired_calls s (updatedAt : Time) w w1 (stale : bool)
    (trn : list Call) :
  now s = time_Now ->
  run h (expired s updatedAt) w = (stale, w1, trn) ->
  trn = [] \/ trn = [Time_Now].
Proof.
  intros Hclock. unfold expired. rewrite Hclock.
  destruct (0 <? cacheTTL s); cbn.
  - destruct (h Time_Now w) as [t w2]. intros [= _ _ <-]; auto.
  - intros [= _ _ <-]; auto.
Qed.

Lemma load_calls s key w w1 (c : error + option Response) (tr : list Call) :
  now s = time_Now ->
  run h (loadFromCache s key) w = (c, w1, tr) ->
  tr = [selectCall s key] \/ tr = [selectCall s key; Time_Now].
Proof.
  intros Hclock.
  destruct (h (selectCall s key) w) as [[e | [payload u]] w2] eqn:Hrow.
  - rewrite (run_load_failed h _ _ _ _ _ Hrow). intros [= _ _ <-]; auto.
  - destruct (run h (expired s u) w2) as [[stale w3] trn] eqn:Hexp.
    rewrite (run_load_row h _ _ _ _ _ _ _ _ _ Hrow Hexp). intros [= _ _ <-].
    destruct (expired_calls _ _ _ _ _ _ Hclock Hexp) as [-> | ->]; auto.
Qed.

Lemma classify_unflagged (key : string) (reply : error + HttpResponse) r :
  classify key reply = inr r -> Erro r = false.
Proof.
  unfold classify. destruct reply as [e | resp]; [discriminate |].
  destruct (StatusCode resp =? http_StatusNotFound); [discriminate |].
  destruct (400 <=? StatusCode resp); [discriminate |].
  destruct (json_Decode (Body resp)) as [e | body]; [discriminate |].
  destruct (Erro body) eqn:Herro; [discriminate |].
  destruct (String.eqb (Cep body) ""); intros [= <-]; exact Herro.
Qed.

Lemma fetch_calls s key w w1 (f : error + Response) (tr : list Call) :
  run h (fetchFromViaCEP s key) w = (f, w1, tr) ->
  (tr = [] /\ exists e, f = inl e)
  \/ exists req : Request,
      http_NewRequestWithContext http_MethodGet (viaCepURL key) = inr req
      /\ tr = [HTTP_Do (client s) req]
      /\ f = classify key (h (HTTP_Do (client s) req) w).1.
Proof.
  destruct (http_NewRequestWithContext http_MethodGet (viaCepURL key))
    as [e | req] eqn:Hreq.
  - rewrite (run_fetch_norequest h _ _ _ _ Hreq). intros [= <- _ <-].
    left; eauto.
  - destruct (h (HTTP_Do (client s) req) w) as [reply w2] eqn:Hdo.
    rewrite (run_fetch_request h _ _ _ _ _ _ Hreq Hdo). intros [= <- _ <-].
    right; exists req; rewrite Hdo; repeat split.
Qed.

Lemma save_calls s key r w w1 (sv : option error) (tr : list Call) :
  now s = time_Now ->
  run h (saveToCache s key r) w = (sv, w1, tr) ->
  (tr = [] /\ exists e, sv = Some e /\ json_Marshal r = inl e)
  \/ exists (payload : bytes) (t : Time),
      json_Marshal r = inr payload
      /\ tr = [Time_Now;
               DB_Exec (db s) (upsertQuery (tableName s)) key payload
                 (time_UTC t)].
Proof.
  intros Hclock. unfold saveToCache. rewrite Hclock.
  destruct (json_Marshal r) as [e | payload] eqn:Hm; cbn.
  - intros [= <- _ <-]. left; eauto.
  - destruct (h Time_Now w) as [t w2].
    destruct (h (DB_Exec _ _ _ _ _) w2) as [res w3].
    intros [= _ _ <-]. right; eauto.
Qed.

Lemma fetch_unflagged s key w w1 r (tr : list Call) :
  run h (fetchFromViaCEP s key) w = (inr r, w1, tr) -> Erro r = false.
Proof.
  intros Hf. destruct (fetch_calls _ _ _ _ _ _ Hf) as [[_ [e He]] | Hreq].
  - discriminate He.
  - destruct Hreq as [req [_ [_ Hcl]]]. symmetry in Hcl.
    apply (classify_unflagged _ _ _ Hcl).
Qed.

(** Every call [Get] makes, for a service on the ambient clock: the select
    on the key, clock readings, the request built for the key, the upsert on
    the key of the marshalled form of an unflagged record, the warning. *)
Lemma Get_calls (P : Call -> Prop) s raw key w :
  now s = time_Now ->
  normalizeCEP raw = inr key ->
  P (selectCall s key) ->
  P Time_Now ->
  (forall req : Request,
      http_NewRequestWithContext http_MethodGet (viaCepURL key) = inr req ->
      P (HTTP_Do (client s) req)) ->
  (forall r (payload : bytes) (t : Time),
      Erro r = false -> json_Marshal r = inr payload ->
      P (DB_Exec (db s) (upsertQuery (tableName s)) key payload (time_UTC t))) ->
  (forall e, P (warnCall s key e)) ->
  Forall P (trace (run h (Get s raw) w)).
Proof.
  intros Hclock Hn Psel Pnow Pdo Pexec Pwarn.
  destruct (run h (loadFromCache s key) w) as [[c w1] tr1] eqn:Hload.
  assert (Forall P tr1) as F1.
  { destruct (load_calls _ _ _ _ _ _ Hclock Hload) as [-> | ->];
      repeat constructor; auto. }
  destruct c as [e | [hit |]].
  - rewrite (run_Get_load_error h _ _ _ _ _ _ _ Hn Hload); exact F1.
  - rewrite (run_Get_hit h _ _ _ _ _ _ _ Hn Hload); exact F1.
  - destruct (run h (fetchFromViaCEP s key) w1) as [[f w2] tr2] eqn:Hf.
    assert (Forall P tr2) as F2.
    { destruct (fetch_calls _ _ _ _ _ _ Hf) as [[-> _] | [req [Hreq [-> _]]]];
        repeat constructor; auto. }
    destruct f as [e | r].
    + rewrite (run_Get_fetch_error h _ _ _ _ _ _ _ _ _ Hn Hload Hf).
      apply Forall_app; auto.
    + pose proof (fetch_unflagged _ _ _ _ _ _ Hf) as Herro.
      destruct (run h (saveToCache s key r) w2) as [[sv w3] tr3] eqn:Hs.
      assert (Forall P tr3) as F3.
      { destruct (save_calls _ _ _ _ _ _ _ Hclock Hs)
          as [[-> _] | [payload [t [Hm ->]]]]; repeat constructor; eauto. }
      destruct sv as [e |].
      * rewrite (run_Get_unsaved h _ _ _ _ _ _ _ _ _ _ _ _ Hn Hload Hf Hs).
        cbn [trace snd]. repeat (apply Forall_app; split); auto.
      * rewrite (run_Get_saved h _ _ _ _ _ _ _ _ _ _ _ Hn Hload Hf Hs).
        cbn [trace snd]. repeat (apply Forall_app; split); auto.
Qed.


(** C2: a store read that fails with an error other than no-rows, and a
    stored payload that does not deserialize, each abort [Get] with that
    error wrapped as a cache-read error; the run ends with the cache read, no
    provider call is made.  A no-rows result is a miss: the caller gets what
    the provider fetch gives. *)
Theorem Get_cache_read_error s raw key w :
  now s = time_Now ->
  normalizeCEP raw = inr key ->
  (forall e w1,
      h (selectCall s key) w = (inl e, w1) ->
      errors_Is e sql_ErrNoRows = false ->
      run h (Get s raw) w
      = (inl (Errorf_w "query cache" e), w1, [selectCall s key]))
  /\ (forall (payload : bytes) (updatedAt : Time) w1 w2 (trn : list Call) e,
      h (selectCall s key) w = (inr (payload, updatedAt), w1) ->
      run h (expired s updatedAt) w1 = (false, w2, trn) ->
      json_Unmarshal payload = inl e ->
      run h (Get s raw) w
      = (inl (Errorf_w "query cache" e), w2, selectCall s key :: trn)
      /\ existsb is_provider_call (selectCall s key :: trn) = false)
  /\ (forall e w1,
      h (selectCall s key) w = (inl e, w1) ->
      errors_Is e sql_ErrNoRows = true ->
      result (run h (Get s raw) w)
      = result (run h (fetchFromViaCEP s key) w1)
      /\ exists rest : list Call,
          trace (run h (Get s raw) w)
          = (selectCall s key
             :: trace (run h (fetchFromViaCEP s key) w1) ++ rest)%list).
Proof.
  intros Hclock Hn. split; [| split].
  - intros e w1 Hrow Hnot.
    apply (run_Get_load_error h _ _ _ _ _ _ _ Hn).
    rewrite (run_load_failed h _ _ _ _ _ Hrow), Hnot; reflexivity.
  - intros payload updatedAt w1 w2 trn e Hrow Hexp Hun. split.
    + apply (run_Get_load_error h _ _ _ _ _ _ _ Hn).
      rewrite (run_load_row h _ _ _ _ _ _ _ _ _ Hrow Hexp), Hun; reflexivity.
    + destruct (expired_calls _ _ _ _ _ _ Hclock Hexp) as [-> | ->];
        reflexivity.
  - intros e w1 Hrow Hno.
    pose proof (run_load_failed h _ _ _ _ _ Hrow) as Hload.
    rewrite Hno in Hload.
    apply (run_Get_miss s raw key w w1 _ Hn Hload).
Qed.

(** C3: once the cache read missed and the provider fetch succeeded, [Get]
    returns the fetched record without error whatever the write-back does;
    when the write-back fails, the failure is logged in one warning line and
    that is all: the result is still the fetched record. *)
Theorem Get_write_failure_swallowed s raw key w w1 w2 r
    (tr1 tr2 : list Call) :
  normalizeCEP raw = inr key ->
  run h (loadFromCache s key) w = (inr None, w1, tr1) ->
  run h (fetchFromViaCEP s key) w1 = (inr r, w2, tr2) ->
  result (run h (Get s raw) w) = inr r
  /\ forall e w3 (tr3 : list Call),
      run h (saveToCache s key r) w2 = (Some e, w3, tr3) ->
      run h (Get s raw) w
      = (inr r, (h (warnCall s key e) w3).2,
         (tr1 ++ tr2 ++ tr3 ++ [warnCall s key e])%list).
Proof.
  intros Hn Hload Hfetch. split.
  - destruct (run_Get_miss s raw key w w1 _ Hn Hload) as [-> _].
    rewrite Hfetch; reflexivity.
  - intros e w3 tr3 Hsave.
    apply (run_Get_unsaved h _ _ _ _ _ _ _ _ _ _ _ _ Hn Hload Hfetch Hsave).
Qed.

(** C5: what the provider fetch makes of the provider's reply.  Status 404
    is the not-found error; any other status of 400 or more is an error that
    carries the status code and prints it; a reply below 400 whose body
    decodes to a record flagged [erro] is the not-found error too; an error
    of the transport comes back unchanged.  Each time the provider was called
    once. *)
Theorem fetch_classifies_reply s key w w1 (req : Request) :
  http_NewRequestWithContext http_MethodGet (viaCepURL key) = inr req ->
  (forall resp : HttpResponse,
      h (HTTP_Do (client s) req) w = (inr resp, w1) ->
      StatusCode resp = 404 ->
      run h (fetchFromViaCEP s key) w
      = (inl ErrNotFound, w1, [HTTP_Do (client s) req]))
  /\ (forall resp : HttpResponse,
      h (HTTP_Do (client s) req) w = (inr resp, w1) ->
      400 <= StatusCode resp -> StatusCode resp <> 404 ->
      run h (fetchFromViaCEP s key) w
      = (inl (Errorf_d "viacep returned status" (StatusCode resp)), w1,
         [HTTP_Do (client s) req])
      /\ error_string (Errorf_d "viacep returned status" (StatusCode resp))
         = "viacep returned status " +:+ fmt_d (StatusCode resp)
      /\ errors_Is (Errorf_d "viacep returned status" (StatusCode resp))
           ErrNotFound = false)
  /\ (forall (resp : HttpResponse) (body : Response),
      h (HTTP_Do (client s) req) w = (inr resp, w1) ->
      StatusCode resp < 400 ->
      json_Decode (Body resp) = inr body ->
      Erro body = true ->
      run h (fetchFromViaCEP s key) w
      = (inl ErrNotFound, w1, [HTTP_Do (client s) req]))
  /\ (forall e,
      h (HTTP_Do (client s) req) w = (inl e, w1) ->
      run h (fetchFromViaCEP s key) w = (inl e, w1, [HTTP_Do (client s) req])).
Proof.
  intros Hreq. split; [| split; [| split]].
  - intros resp Hdo Hst.
    rewrite (run_fetch_request h _ _ _ _ _ _ Hreq Hdo). cbn.
    rewrite Hst; reflexivity.
  - intros resp Hdo Hst Hne.
    rewrite (run_fetch_request h _ _ _ _ _ _ Hreq Hdo). cbn [classify].
    apply Z.eqb_neq in Hne. apply Z.leb_le in Hst.
    unfold http_StatusNotFound. rewrite Hne, Hst. repeat split.
  - intros resp body Hdo Hst Hdec Herro.
    rewrite (run_fetch_request h _ _ _ _ _ _ Hreq Hdo). cbn.
    assert ((StatusCode resp =? http_StatusNotFound) = false) as ->
      by (apply Z.eqb_neq; unfold http_StatusNotFound; lia).
    assert ((400 <=? StatusCode resp) = false) as -> by (apply Z.leb_gt; lia).
    rewrite Hdec, Herro; reflexivity.
  - intros e Hdo.
    rewrite (run_fetch_request h _ _ _ _ _ _ Hreq Hdo); reflexivity.
Qed.

Lemma formatCEP_8 (key : string) :
  String.length key = 8%nat ->
  formatCEP key = substring 0 5 key +:+ "-" +:+ substring 5 3 key
  /\ String.length (formatCEP key) = 9%nat
  /\ onlyDigits (formatCEP key) = onlyDigits key.
Proof.
  intros Hlen. unfold formatCEP. rewrite Hlen. cbn [Nat.eqb Nat.sub].
  do 8 (destruct key as [| ? key]; [discriminate Hlen |]).
  destruct key; [| discriminate Hlen].
  cbn. repeat split.
Qed.

Lemma onlyDigits_digit_bytes (value : string) :
  Forall digit_byte (list_ascii_of_string (onlyDigits value)).
Proof.
  induction value as [| a rest IH]; cbn; [constructor |].
  destruct (is_digit a) eqn:Ha; [| exact IH].
  cbn. constructor; [| exact IH].
  unfold is_digit in Ha. apply andb_true_iff in Ha as [Hlo Hhi].
  apply Nat.leb_le in Hlo, Hhi. split; assumption.
Qed.

Lemma normalizeCEP_eight_digits (value key : string) :
  normalizeCEP value = inr key -> eight_digits key.
Proof.
  intros Hn. apply normalizeCEP_ok in Hn as [-> Hlen].
  split; [exact Hlen | apply onlyDigits_digit_bytes].
Qed.

Lemma key_halves (key : string) :
  String.length key = 8%nat ->
  key = substring 0 5 key +:+ substring 5 3 key
  /\ String.length (substring 0 5 key) = 5%nat
  /\ String.length (substring 5 3 key) = 3%nat.
Proof.
  intros Hlen.
  do 8 (destruct key as [| ? key]; [discriminate Hlen |]).
  destruct key; [| discriminate Hlen].
  cbn. repeat split.
Qed.

(** C7: after a miss, when the provider answers below 400 with a body that
    decodes to an unflagged record, [Get] returns a record whose fields
    other than the code are the body's.  If the body's code is empty, the
    code of the returned record is the key's first five digits, a hyphen and
    its last three digits (the key being those eight digits, five then
    three); a code the provider supplied is the code returned. *)
Theorem Get_fills_empty_code s raw key w w1 w2 (tr1 : list Call)
    (req : Request) (resp : HttpResponse) (body : Response) :
  normalizeCEP raw = inr key ->
  run h (loadFromCache s key) w = (inr None, w1, tr1) ->
  http_NewRequestWithContext http_MethodGet (viaCepURL key) = inr req ->
  h (HTTP_Do (client s) req) w1 = (inr resp, w2) ->
  StatusCode resp < 400 ->
  json_Decode (Body resp) = inr body ->
  Erro body = false ->
  exists r : Response,
    result (run h (Get s raw) w) = inr r
    /\ (Cep body = "" ->
        Cep r = substring 0 5 key +:+ "-" +:+ substring 5 3 key
        /\ String.length (Cep r) = 9%nat)
    /\ (Cep body <> "" -> Cep r = Cep body)
    /\ fields_but_Cep r = fields_but_Cep body
    /\ eight_digits key
    /\ key = substring 0 5 key +:+ substring 5 3 key
    /\ String.length (substring 0 5 key) = 5%nat
    /\ String.length (substring 5 3 key) = 3%nat.
Proof.
  intros Hn Hload Hreq Hdo Hst Hdec Herro.
  destruct (run_Get_miss s raw key w w1 _ Hn Hload) as [-> _].
  rewrite (run_fetch_request h _ _ _ _ _ _ Hreq Hdo). cbn.
  assert ((StatusCode resp =? http_StatusNotFound) = false) as ->
    by (apply Z.eqb_neq; unfold http_StatusNotFound; lia).
  assert ((400 <=? StatusCode resp) = false) as -> by (apply Z.leb_gt; lia).
  rewrite Hdec, Herro.
  pose proof (normalizeCEP_eight_digits _ _ Hn) as Hkey.
  destruct Hkey as [Hlen Hdig].
  destruct (formatCEP_8 key Hlen) as [Hfmt [Hlen9 _]].
  destruct (key_halves key Hlen) as (Hsplit & H5 & H3).
  destruct (String.eqb (Cep body) "") eqn:Hc.
  - apply String.eqb_eq in Hc.
    exists (set_Cep (formatCEP key) body).
    split; [reflexivity |].
    split; [intros _; cbn [Cep set_Cep]; split; [exact Hfmt | exact Hlen9] |].
    split; [intros Hne; contradiction |].
    split; [reflexivity |].
    split; [split; assumption |]. auto.
  - apply String.eqb_neq in Hc.
    exists body.
    split; [reflexivity |].
    split; [intros He; contradiction |].
    split; [intros _; reflexivity |].
    split; [reflexivity |].
    split; [split; assumption |]. auto.
Qed.

(** C6: on a cache hit (a row found, not expired, that deserializes) [Get]
    returns the cached record and its run holds no provider call and no
    store write.  Conversely a run of [Get] that holds a store write has
    missed the cache and fetched a record from the provider successfully,
    and the write comes after the provider call. *)
Theorem Get_hit_makes_no_call_or_write s raw key w :
  now s = time_Now ->
  normalizeCEP raw = inr key ->
  (forall (payload : bytes) (updatedAt : Time) w1 w2 (trn : list Call) r,
      h (selectCall s key) w = (inr (payload, updatedAt), w1) ->
      run h (expired s updatedAt) w1 = (false, w2, trn) ->
      json_Unmarshal payload = inr r ->
      run h (Get s raw) w = (inr r, w2, selectCall s key :: trn)
      /\ existsb is_provider_call (selectCall s key :: trn) = false
      /\ existsb is_store_write (selectCall s key :: trn) = false)
  /\ (existsb is_store_write (trace (run h (Get s raw) w)) = true ->
      exists w1 w2 r (tr1 tr2 rest : list Call),
        run h (loadFromCache s key) w = (inr None, w1, tr1)
        /\ run h (fetchFromViaCEP s key) w1 = (inr r, w2, tr2)
        /\ result (run h (Get s raw) w) = inr r
        /\ trace (run h (Get s raw) w) = (tr1 ++ tr2 ++ rest)%list
        /\ existsb is_store_write tr1 = false
        /\ existsb is_store_write tr2 = false
        /\ existsb is_provider_call tr2 = true).
Proof.
  intros Hclock Hn. split.
  - intros payload updatedAt w1 w2 trn r Hrow Hexp Hun.
    pose proof (run_load_row h _ _ _ _ _ _ _ _ _ Hrow Hexp) as Hload.
    rewrite Hun in Hload.
    split; [apply (run_Get_hit h _ _ _ _ _ _ _ Hn Hload) |].
    destruct (expired_calls _ _ _ _ _ _ Hclock Hexp) as [-> | ->];
      split; reflexivity.
  - destruct (run h (loadFromCache s key) w) as [[c w1] tr1] eqn:Hload.
    assert (existsb is_store_write tr1 = false) as N1
      by (destruct (load_calls _ _ _ _ _ _ Hclock Hload) as [-> | ->];
          reflexivity).
    destruct c as [e | [hit |]].
    + rewrite (run_Get_load_error h _ _ _ _ _ _ _ Hn Hload).
      cbn [trace snd]. rewrite N1; discriminate.
    + rewrite (run_Get_hit h _ _ _ _ _ _ _ Hn Hload).
      cbn [trace snd]. rewrite N1; discriminate.
    + destruct (run h (fetchFromViaCEP s key) w1) as [[f w2] tr2] eqn:Hf.
      destruct (fetch_calls _ _ _ _ _ _ Hf)
        as [[-> [e ->]] | [req [Hreq [-> Hcl]]]].
      * rewrite (run_Get_fetch_error h _ _ _ _ _ _ _ _ _ Hn Hload Hf).
        cbn [trace snd]. rewrite app_nil_r, N1; discriminate.
      * destruct f as [e | r].
        -- rewrite (run_Get_fetch_error h _ _ _ _ _ _ _ _ _ Hn Hload Hf).
           cbn [trace snd]. rewrite existsb_app, N1; discriminate.
        -- intros _. exists w1, w2, r, tr1, [HTTP_Do (client s) req].
           destruct (run_Get_miss s raw key w w1 _ Hn Hload)
             as [Hres [rest Htr]].
           rewrite Hf in Hres, Htr. exists rest. repeat split; auto.
Qed.

(** C10: a record that comes out of the provider fetch is never flagged
    [erro]; so a record [Get] returns after a miss is not flagged, every
    payload [Get] upserts is the marshalled form of an unflagged record, and
    when the provider's body is flagged the run of [Get] ends with the
    not-found error and holds no store write. *)
Theorem fetched_record_is_unflagged s raw w :
  (forall (key : string) w0 w1 r (tr : list Call),
      run h (fetchFromViaCEP s key) w0 = (inr r, w1, tr) -> Erro r = false)
  /\ (forall (key : string) w1 (tr1 : list Call) r,
      normalizeCEP raw = inr key ->
      run h (loadFromCache s key) w = (inr None, w1, tr1) ->
      result (run h (Get s raw) w) = inr r -> Erro r = false)
  /\ (now s = time_Now ->
      Forall stores_unflagged (trace (run h (Get s raw) w)))
  /\ (now s = time_Now ->
      forall (key : string) w1 w2 (tr1 : list Call) (req : Request)
             (resp : HttpResponse) (body : Response),
        normalizeCEP raw = inr key ->
        run h (loadFromCache s key) w = (inr None, w1, tr1) ->
        http_NewRequestWithContext http_MethodGet (viaCepURL key) = inr req ->
        h (HTTP_Do (client s) req) w1 = (inr resp, w2) ->
        StatusCode resp < 400 ->
        json_Decode (Body resp) = inr body ->
        Erro body = true ->
        result (run h (Get s raw) w) = inl ErrNotFound
        /\ existsb is_store_write (trace (run h (Get s raw) w)) = false).
Proof.
  split; [| split; [| split]].
  - intros key w0 w1 r tr. apply fetch_unflagged.
  - intros key w1 tr1 r Hn Hload.
    destruct (run_Get_miss s raw key w w1 _ Hn Hload) as [-> _].
    destruct (run h (fetchFromViaCEP s key) w1) as [[f w2] tr2] eqn:Hf.
    cbn. intros ->. apply (fetch_unflagged _ _ _ _ _ _ Hf).
  - intros Hclock.
    destruct (normalizeCEP raw) as [e | key] eqn:Hn.
    + apply normalizeCEP_err in Hn as [_ Hlen].
      rewrite (run_Get_invalid h _ _ _ Hlen). constructor.
    + apply (Get_calls stores_unflagged s raw key w Hclock Hn); cbn; eauto.
  - intros Hclock key w1 w2 tr1 req resp body Hn Hload Hreq Hdo Hst Hdec Hbad.
    pose proof (run_fetch_request h _ _ _ _ _ _ Hreq Hdo) as Hf. cbn in Hf.
    assert ((StatusCode resp =? http_StatusNotFound) = false) as E1
      by (apply Z.eqb_neq; unfold http_StatusNotFound; lia).
    assert ((400 <=? StatusCode resp) = false) as E2 by (apply Z.leb_gt; lia).
    rewrite E1, E2, Hdec, Hbad in Hf.
    rewrite (run_Get_fetch_error h _ _ _ _ _ _ _ _ _ Hn Hload Hf).
    split; [reflexivity |]. cbn [trace snd].
    destruct (load_calls _ _ _ _ _ _ Hclock Hload) as [-> | ->]; reflexivity.
Qed.

(** C4, as the code has it: an input that, stripped of its non-digits, is
    not 8 digits long makes [Get] fail with the invalid-CEP error, and the
    run makes no call at all; [Get] fails this way, before any call, exactly
    for those inputs.  With 8 digits the run starts with the cache read, and
    it can still end in the invalid-CEP error, but only when that very error
    was returned to it by the client, by the body decoder or by the request
    constructor, whose errors the provider step hands back unchanged.  Every
    call of a run names the stripped input as its key, and when there is a
    call that key is 8 bytes, each one of ['0'] .. ['9']. *)
Theorem Get_rejects_invalid_key s raw w :
  (String.length (onlyDigits raw) <> 8%nat ->
   run h (Get s raw) w = (inl ErrInvalidCEP, w, []))
  /\ (run h (Get s raw) w = (inl ErrInvalidCEP, w, [])
      <-> String.length (onlyDigits raw) <> 8%nat)
  /\ (String.length (onlyDigits raw) = 8%nat ->
      exists rest : list Call,
        trace (run h (Get s raw) w) = selectCall s (onlyDigits raw) :: rest)
  /\ (String.length (onlyDigits raw) = 8%nat ->
      result (run h (Get s raw) w) = inl ErrInvalidCEP ->
      (exists (req : Request) w0 w1,
          h (HTTP_Do (client s) req) w0 = (inl ErrInvalidCEP, w1))
      \/ (exists b : bytes, json_Decode b = inl ErrInvalidCEP)
      \/ (exists u : string,
            http_NewRequestWithContext http_MethodGet u = inl ErrInvalidCEP))
  /\ (now s = time_Now ->
      Forall (keyed (onlyDigits raw)) (trace (run h (Get s raw) w)))
  /\ (trace (run h (Get s raw) w) <> [] -> eight_digits (onlyDigits raw)).
Proof.
  destruct (normalizeCEP raw) as [e | key] eqn:Hn.
  - apply normalizeCEP_err in Hn as [_ Hlen].
    rewrite (run_Get_invalid h _ _ _ Hlen).
    split; [auto |]. split; [split; auto |].
    split; [intros Heq; contradiction |].
    split; [intros Heq; contradiction |].
    split; [intros _; constructor |].
    intros Hne. exfalso. apply Hne. reflexivity.
  - pose proof (normalizeCEP_eight_digits _ _ Hn) as Hkey.
    pose proof Hn as Hn'. apply normalizeCEP_ok in Hn' as [-> Hlen].
    assert (exists rest : list Call,
               trace (run h (Get s raw) w)
               = selectCall s (onlyDigits raw) :: rest) as Hfirst.
    { unfold Get, loadFromCache, selectCall. rewrite Hn.
      cbn [run bind call].
      destruct (h (DB_QueryRowScan _ _ _) w) as [row wa].
      destruct (run h _ wa) as [[a wb] tr]. eexists. reflexivity. }
    split; [intros Hbad; contradiction |].
    split; [| split; [| split; [| split]]].
    + split; [| intros Hbad; contradiction].
      intros Hrun. destruct Hfirst as [rest Hfirst].
      rewrite Hrun in Hfirst. discriminate Hfirst.
    + intros _. exact Hfirst.
    + intros _ Hres.
      destruct (run h (loadFromCache s (onlyDigits raw)) w)
        as [[c w1] tr1] eqn:Hload.
      destruct c as [e | [hit |]].
      * rewrite (run_Get_load_error h _ _ _ _ _ _ _ Hn Hload) in Hres.
        discriminate Hres.
      * rewrite (run_Get_hit h _ _ _ _ _ _ _ Hn Hload) in Hres.
        discriminate Hres.
      * destruct (run_Get_miss s raw _ w w1 _ Hn Hload) as [Hr _].
        rewrite Hr in Hres.
        destruct (run h (fetchFromViaCEP s (onlyDigits raw)) w1)
          as [[f w2] tr2] eqn:Hf.
        cbn in Hres. subst f. revert Hf. unfold fetchFromViaCEP.
        destruct (http_NewRequestWithContext http_MethodGet
                    (viaCepURL (onlyDigits raw))) as [e | req] eqn:Hq.
        { intros [= -> _ _]. right; right; eauto. }
        cbn [run bind call].
        destruct (h (HTTP_Do (client s) req) w1) as [[e | resp] w3] eqn:Hdo.
        { intros [= -> _ _]. left; eauto. }
        cbn [run bind call].
        destruct (StatusCode resp =? http_StatusNotFound); [discriminate |].
        destruct (400 <=? StatusCode resp); [discriminate |].
        destruct (json_Decode (Body resp)) as [e | body] eqn:Hb.
        { intros [= -> _ _]. right; left; eauto. }
        destruct (Erro body); [discriminate |].
        destruct (String.eqb (Cep body) ""); discriminate.
    + intros Hclock.
      apply (Get_calls (keyed (onlyDigits raw)) s raw _ w Hclock Hn);
        cbn; auto.
    + intros _. exact Hkey.
Qed.

(** C8, as the code has it: [NewService] has no clock argument and always
    installs the ambient [time.Now]; the clock is a field of the service
    value, and that field is what the staleness check and the write-back
    timestamp read: a service value whose field holds a fixed clock checks
    staleness against it and stamps the upsert with it, without a call to
    the ambient clock. *)
Theorem NewService_installs_ambient_clock :
  (forall (d : sql_DB) (c : httpClient) (ttl : Duration) (lg : option Logger),
      now (NewService d c ttl lg) = time_Now)
  /\ (forall s (t updatedAt : Time) w,
      now s = Ret t -> 0 < cacheTTL s ->
      run h (expired s updatedAt) w
      = (cacheTTL s <? time_Sub t updatedAt, w, []))
  /\ (forall s (t : Time) (key : string) r (payload : bytes) w,
      now s = Ret t -> json_Marshal r = inr payload ->
      trace (run h (saveToCache s key r) w)
      = [DB_Exec (db s) (upsertQuery (tableName s)) key payload (time_UTC t)]).
Proof.
  split; [reflexivity | split].
  - intros s t updatedAt w Hnow Httl.
    apply (run_expired_on h s updatedAt t w w [] Httl).
    rewrite Hnow; reflexivity.
  - intros s t key r payload w Hnow Hm. unfold saveToCache.
    rewrite Hm, Hnow. cbn.
    destruct (h (DB_Exec _ _ _ _ _) w) as [res w1]; reflexivity.
Qed.

End Claims.

(** C8 as stated fails: no choice of arguments makes [NewService] install a
    clock other than the ambient one. *)
Lemma NewService_clock_not_an_argument :
  ~ exists (d : sql_DB) (c : httpClient) (ttl : Duration) (lg : option Logger),
      now (NewService d c ttl lg) <> time_Now.
Proof. intros (d & c & ttl & lg & Hne). apply Hne. reflexivity. Qed.

(** C4 as stated fails: [Get] can fail with the invalid-CEP error on an
    input of 8 digits.  Here the client itself returns that error for
    ["99999999"], the provider step hands it back unchanged, and so the
    equivalence of the claim does not hold: the result is the invalid-CEP
    error while the input has exactly 8 digits. *)
Lemma Get_invalid_key_on_eight_digits :
  ~ (forall (W : Type) (h : Handler W) (w : W) (s : Service) (raw : string),
        result (run h (Get (rt := Doubles.fixtures) s raw) w)
        = inl ErrInvalidCEP
        <-> String.length (onlyDigits raw) <> 8%nat).
Proof.
  intros Hclaim.
  apply (proj1 (Hclaim Doubles.World
                  (Doubles.handler (fun _ => inl ErrInvalidCEP))
                  Doubles.emptyWorld (Doubles.svc Doubles.hour) "99999999")).
  - reflexivity.
  - reflexivity.
Qed.

(** ** The package's tests, replayed on the doubles *)
Module PackageTests.
Import Doubles.

Example TestServiceGetCacheHit :
  let x := run pg (Get (svc hour) "12345-678")
             (cachedWorld goodPayload (later hour t0)) in
  result x = inr ruaTeste /\ calls (world x) = 0%nat.
Proof. split; reflexivity. Qed.

Example TestServiceGetCacheMiss :
  let x := run pg (Get (svc hour) "76543-210") emptyWorld in
  result x = inr ruaNova /\ Cep ruaNova = "76543-210"
  /\ calls (world x) = 1%nat
  /\ table (world x) !! "76543210" = Some (payloadOf "ruaNova", later hour t0).
Proof. repeat split; reflexivity. Qed.

Example TestServiceGetRemoteNotFound :
  let x := run pg (Get (svc hour) "00000000") emptyWorld in
  result x = inl ErrNotFound /\ calls (world x) = 1%nat
  /\ table (world x) = ∅.
Proof. repeat split; reflexivity. Qed.

(** A second lookup of the same CEP is served from the row the first one
    wrote: the provider is not called again. *)
Example second_lookup_is_cached :
  let x := run pg (Get (svc hour) "76543-210") emptyWorld in
  let y := run pg (Get (svc hour) "76543210") (world x) in
  result y = result x /\ calls (world y) = 1%nat
  /\ trace y = [selectCall (svc hour) "76543210"; Time_Now].
Proof. repeat split; reflexivity. Qed.

End PackageTests.

(** ** The statements at work on the doubles *)
Module Witnesses.
Import Doubles.

Lemma viaCep_foreign (url : string) : viaCep url <> inl ErrInvalidCEP.
Proof. unfold viaCep. repeat case (String.eqb url _); discriminate. Qed.

Lemma decodeFixture_foreign (b : bytes) :
  decodeFixture b <> inl ErrInvalidCEP.
Proof.
  unfold decodeFixture. repeat case (String.eqb (string_of_list_byte b) _);
    discriminate.
Qed.

Lemma normalizeCEP_idempotent_witness :
  normalizeCEP "12345678" = inr "12345678"
  /\ String.length "12345678" = 8%nat /\ all_digits "12345678".
Proof.
  apply (proj1 normalizeCEP_idempotent "12345-678" "12345678").
  reflexivity.
Defined.


(** A failing read and a payload that does not decode abort the lookup; an
    empty table is a miss. *)
Lemma Get_cache_read_error_witness :
  run pg (Get (svc hour) "12345-678") (brokenReads connReset)
  = (inl (Errorf_w "query cache" connReset), brokenReads connReset,
     [selectCall (svc hour) "12345678"])
  /\ run pg (Get (svc hour) "12345-678") (cachedWorld badPayload t0)
     = (inl (Errorf_w "query cache" (ForeignError "invalid character")),
        cachedWorld badPayload t0,
        [selectCall (svc hour) "12345678"; Time_Now])
  /\ result (run pg (Get (svc hour) "76543-210") emptyWorld)
     = result (run pg (fetchFromViaCEP (svc hour) "76543210") emptyWorld).
Proof.
  split; [| split].
  - refine (proj1 (Get_cache_read_error pg (svc hour) "12345-678" "12345678"
              (brokenReads connReset) _ _) connReset _ _ _); reflexivity.
  - refine (proj1 (proj1 (proj2 (Get_cache_read_error pg (svc hour)
              "12345-678" "12345678" (cachedWorld badPayload t0) _ _))
              badPayload t0 (cachedWorld badPayload t0)
              (cachedWorld badPayload t0) [Time_Now]
              (ForeignError "invalid character") _ _ _)); reflexivity.
  - refine (proj1 (proj2 (proj2 (Get_cache_read_error pg (svc hour)
              "76543-210" "76543210" emptyWorld _ _))
              sql_ErrNoRows emptyWorld _ _)); reflexivity.
Defined.

(** The upsert fails: the record is returned all the same and one warning
    is logged. *)
Lemma Get_write_failure_swallowed_witness :
  run pg (Get (svc hour) "76543-210") (brokenWrites diskFull)
  = (inr ruaNova,
     append_log
       "warn: failed to persist cep 76543210 cache: could not extend file: disk full"
       (count_call (brokenWrites diskFull)),
     [selectCall (svc hour) "76543210";
      HTTP_Do (Client 0) (mkRequest "GET" (viaCepURL "76543210"));
      Time_Now;
      DB_Exec (DBConn 0) (upsertQuery "ceps") "76543210" (payloadOf "ruaNova")
        (later hour t0);
      warnCall (svc hour) "76543210" diskFull]).
Proof.
  refine (proj2 (Get_write_failure_swallowed pg (svc hour) "76543-210"
            "76543210" (brokenWrites diskFull) (brokenWrites diskFull)
            (count_call (brokenWrites diskFull)) ruaNova
            [selectCall (svc hour) "76543210"]
            [HTTP_Do (Client 0) (mkRequest "GET" (viaCepURL "76543210"))]
            _ _ _)
            diskFull (count_call (brokenWrites diskFull))
            [Time_Now;
             DB_Exec (DBConn 0) (upsertQuery "ceps") "76543210"
               (payloadOf "ruaNova") (later hour t0)] _); reflexivity.
Defined.

(** Five digits are refused without a call; eight digits are looked up
    under the stripped key, which is eight digit bytes; and a lookup of
    eight digits that ends in the invalid-CEP error got it from the client. *)
Lemma Get_rejects_invalid_key_witness :
  run pg (Get (svc hour) "12-345") emptyWorld
  = (inl ErrInvalidCEP, emptyWorld, [])
  /\ (exists rest : list Call,
        trace (run pg (Get (svc hour) "76543-210") emptyWorld)
        = selectCall (svc hour) "76543210" :: rest)
  /\ Forall (keyed "76543210")
       (trace (run pg (Get (svc hour) "76543-210") emptyWorld))
  /\ eight_digits "76543210"
  /\ ((exists (req : Request) (w0 w1 : World),
          handler (fun _ => inl ErrInvalidCEP) (HTTP_Do (Client 0) req) w0
          = (inl ErrInvalidCEP, w1))
      \/ (exists b : bytes, decodeFixture b = inl ErrInvalidCEP)
      \/ (exists u : string,
            @inr error Request (mkRequest "GET" u) = inl ErrInvalidCEP)).
Proof.
  split; [| split; [| split; [| split]]].
  - refine (proj1 (Get_rejects_invalid_key pg (svc hour) "12-345"
              emptyWorld) _).
    vm_compute; discriminate.
  - refine (proj1 (proj2 (proj2 (Get_rejects_invalid_key pg (svc hour)
              "76543-210" emptyWorld))) _).
    reflexivity.
  - refine (proj1 (proj2 (proj2 (proj2 (proj2 (Get_rejects_invalid_key pg
              (svc hour) "76543-210" emptyWorld))))) _).
    reflexivity.
  - refine (proj2 (proj2 (proj2 (proj2 (proj2 (Get_rejects_invalid_key pg
              (svc hour) "76543-210" emptyWorld))))) _).
    vm_compute; discriminate.
  - refine (proj1 (proj2 (proj2 (proj2 (Get_rejects_invalid_key
              (handler (fun _ => inl ErrInvalidCEP)) (svc hour) "99999999"
              emptyWorld)))) _ _); reflexivity.
Defined.

(** The provider answers 404, 500, a flagged body, or not at all. *)
Lemma fetch_classifies_reply_witness :
  run pg (fetchFromViaCEP (svc hour) "40400000") emptyWorld
  = (inl ErrNotFound, count_call emptyWorld,
     [HTTP_Do (Client 0) (mkRequest "GET" (viaCepURL "40400000"))])
  /\ (run pg (fetchFromViaCEP (svc hour) "50000000") emptyWorld
      = (inl (Errorf_d "viacep returned status" 500), count_call emptyWorld,
         [HTTP_Do (Client 0) (mkRequest "GET" (viaCepURL "50000000"))])
      /\ error_string (Errorf_d "viacep returned status" 500)
         = "viacep returned status 500")
  /\ run pg (fetchFromViaCEP (svc hour) "00000000") emptyWorld
     = (inl ErrNotFound, count_call emptyWorld,
        [HTTP_Do (Client 0) (mkRequest "GET" (viaCepURL "00000000"))])
  /\ run pg (fetchFromViaCEP (svc hour) "99999999") emptyWorld
     = (inl (ForeignError "dial tcp: connection refused"),
        count_call emptyWorld,
        [HTTP_Do (Client 0) (mkRequest "GET" (viaCepURL "99999999"))]).
Proof.
  split; [| split; [| split]].
  - refine (proj1 (fetch_classifies_reply pg (svc hour) "40400000" emptyWorld
              (count_call emptyWorld)
              (mkRequest "GET" (viaCepURL "40400000")) _)
              (mkHttpResponse 404 []) _ _); reflexivity.
  - pose proof (proj1 (proj2 (fetch_classifies_reply pg (svc hour) "50000000"
              emptyWorld (count_call emptyWorld)
              (mkRequest "GET" (viaCepURL "50000000")) eq_refl))
              (mkHttpResponse 500 []) eq_refl) as H500.
    cbn [StatusCode] in H500.
    destruct H500 as [Hrun [Hstr _]]; [lia | lia |].
    split; [exact Hrun | exact Hstr].
  - refine (proj1 (proj2 (proj2 (fetch_classifies_reply pg (svc hour)
              "00000000" emptyWorld (count_call emptyWorld)
              (mkRequest "GET" (viaCepURL "00000000")) _)))
              (mkHttpResponse 200 (payloadOf "naoEncontrado")) naoEncontrado
              _ _ _ _); first [reflexivity | cbn; lia].
  - refine (proj2 (proj2 (proj2 (fetch_classifies_reply pg (svc hour)
              "99999999" emptyWorld (count_call emptyWorld)
              (mkRequest "GET" (viaCepURL "99999999")) _)))
              (ForeignError "dial tcp: connection refused") _); reflexivity.
Defined.

(** A fresh row: no provider call, no store write.  A run with a store
    write: the cache was missed and the provider was asked first. *)
Lemma Get_hit_makes_no_call_or_write_witness :
  (run pg (Get (svc hour) "12345-678") (cachedWorld goodPayload t0)
   = (inr ruaTeste, cachedWorld goodPayload t0,
      [selectCall (svc hour) "12345678"; Time_Now])
   /\ existsb is_provider_call [selectCall (svc hour) "12345678"; Time_Now]
      = false
   /\ existsb is_store_write [selectCall (svc hour) "12345678"; Time_Now]
      = false)
  /\ exists (w1 w2 : World) (r : Response) (tr1 tr2 rest : list Call),
      run pg (loadFromCache (svc hour) "76543210") emptyWorld
      = (inr None, w1, tr1)
      /\ run pg (fetchFromViaCEP (svc hour) "76543210") w1 = (inr r, w2, tr2)
      /\ result (run pg (Get (svc hour) "76543-210") emptyWorld) = inr r
      /\ trace (run pg (Get (svc hour) "76543-210") emptyWorld)
         = (tr1 ++ tr2 ++ rest)%list
      /\ existsb is_store_write tr1 = false
      /\ existsb is_store_write tr2 = false
      /\ existsb is_provider_call tr2 = true.
Proof.
  split.
  - refine (proj1 (Get_hit_makes_no_call_or_write pg (svc hour) "12345-678"
              "12345678" (cachedWorld goodPayload t0) _ _)
              goodPayload t0 (cachedWorld goodPayload t0)
              (cachedWorld goodPayload t0) [Time_Now] ruaTeste _ _ _);
      reflexivity.
  - refine (proj2 (Get_hit_makes_no_call_or_write pg (svc hour) "76543-210"
              "76543210" emptyWorld _ _) _); reflexivity.
Defined.

(** An empty code is filled from the key, the other fields stay; a code
    the provider sent stays. *)
Lemma Get_fills_empty_code_witness :
  (exists r : Response,
      result (run pg (Get (svc hour) "11111-111") emptyWorld) = inr r
      /\ Cep r = "11111-111"
      /\ fields_but_Cep r
         = ("Rua Nova", "", "Bairro", "Cidade", "ST", "1234567", "", "", "",
            "", false))
  /\ result (run pg (Get (svc hour) "11111-111") emptyWorld)
     = inr (mkResponse "11111-111" "Rua Nova" "" "Bairro" "Cidade" "ST"
              "1234567" "" "" "" "" false)
  /\ exists r : Response,
      result (run pg (Get (svc hour) "76543210") emptyWorld) = inr r
      /\ Cep r = "76543-210".
Proof.
  split; [| split].
  - destruct (Get_fills_empty_code pg (svc hour) "11111-111" "11111111"
                emptyWorld emptyWorld (count_call emptyWorld)
                [selectCall (svc hour) "11111111"]
                (mkRequest "GET" (viaCepURL "11111111"))
                (mkHttpResponse 200 (payloadOf "semCep")) semCep)
      as (r & Hres & Hempty & _ & Hrest & _);
      try reflexivity; try (cbn; lia).
    exists r. split; [exact Hres |].
    split; [exact (proj1 (Hempty eq_refl)) | exact Hrest].
  - reflexivity.
  - destruct (Get_fills_empty_code pg (svc hour) "76543210" "76543210"
                emptyWorld emptyWorld (count_call emptyWorld)
                [selectCall (svc hour) "76543210"]
                (mkRequest "GET" (viaCepURL "76543210"))
                (mkHttpResponse 200 (payloadOf "ruaNova")) ruaNova)
      as (r & Hres & _ & Hkept & _);
      try reflexivity; try (cbn; lia).
    exists r. split; [exact Hres |].
    apply Hkept. discriminate.
Defined.

(** A service value with a clock fixed at [t0] checks staleness against
    [t0] and stamps its upsert with it, without asking the ambient clock. *)
Lemma NewService_installs_ambient_clock_witness :
  run pg (expired (frozen t0 hour) (later (- 2 * hour) t0)) emptyWorld
  = (true, emptyWorld, [])
  /\ trace (run pg (saveToCache (frozen t0 hour) "76543210" ruaNova)
              emptyWorld)
     = [DB_Exec (DBConn 0) (upsertQuery "ceps") "76543210"
          (payloadOf "ruaNova") t0].
Proof.
  split.
  - refine (proj1 (proj2 (NewService_installs_ambient_clock pg))
              (frozen t0 hour) t0 (later (- 2 * hour) t0) emptyWorld _ _);
      first [reflexivity | vm_compute; reflexivity].
  - refine (proj2 (proj2 (NewService_installs_ambient_clock pg))
              (frozen t0 hour) t0 "76543210" ruaNova (payloadOf "ruaNova")
              emptyWorld _ _); reflexivity.
Defined.

(** A flagged body ends the lookup with not-found and nothing is written;
    what is written after a miss is the marshalled form of an unflagged
    record. *)
Lemma fetched_record_is_unflagged_witness :
  (result (run pg (Get (svc hour) "00000000") emptyWorld) = inl ErrNotFound
   /\ existsb is_store_write
        (trace (run pg (Get (svc hour) "00000000") emptyWorld)) = false)
  /\ Forall stores_unflagged
       (trace (run pg (Get (svc hour) "76543-210") emptyWorld))
  /\ Erro ruaNova = false.
Proof.
  split; [| split].
  - refine (proj2 (proj2 (proj2 (fetched_record_is_unflagged pg (svc hour)
              "00000000" emptyWorld))) _ "00000000" emptyWorld
              (count_call emptyWorld) [selectCall (svc hour) "00000000"]
              (mkRequest "GET" (viaCepURL "00000000"))
              (mkHttpResponse 200 (payloadOf "naoEncontrado")) naoEncontrado
              _ _ _ _ _ _ _); first [reflexivity | cbn; lia].
  - refine (proj1 (proj2 (proj2 (fetched_record_is_unflagged pg (svc hour)
              "76543-210" emptyWorld))) _); reflexivity.
  - refine (proj1 (proj2 (fetched_record_is_unflagged pg (svc hour)
              "76543-210" emptyWorld)) "76543210" emptyWorld
              [selectCall (svc hour) "76543210"] ruaNova _ _ _); reflexivity.
Defined.

End Witnesses.

(** ** Further properties of the lookup *)

Section Lookups.
Context {rt : GoRuntime} {W : Type} (h : Handler W).

Implicit Types (s : Service) (w : W) (e : error) (r : Response).

(** X1: [Get] sees its input through its digits only.  Two inputs are the same
    lookup (the same program, so the same run in every world) exactly when
    they hold the same 8 digits in the same order, whatever separators,
    blanks or letters surround them, or when both are refused. *)
Theorem Get_reads_digits_only s (raw raw' : string) :
  (onlyDigits raw = onlyDigits raw' ->
   Get s raw = Get s raw'
   /\ forall w, run h (Get s raw) w = run h (Get s raw') w)
  /\ (Get s raw = Get s raw'
      <-> (String.length (onlyDigits raw) <> 8%nat
           /\ String.length (onlyDigits raw') <> 8%nat)
          \/ (String.length (onlyDigits raw) = 8%nat
              /\ onlyDigits raw = onlyDigits raw')).
Proof.
  assert (onlyDigits raw = onlyDigits raw' -> Get s raw = Get s raw') as Hsame.
  { intros Hd. unfold Get, normalizeCEP. rewrite Hd. reflexivity. }
  assert (forall x : string,
             String.length (onlyDigits x) <> 8%nat ->
             Get s x = Ret (inl ErrInvalidCEP)) as Hbad.
  { intros x Hlen. unfold Get, normalizeCEP.
    apply Nat.eqb_neq in Hlen. rewrite Hlen. reflexivity. }
  assert (forall x : string,
             String.length (onlyDigits x) = 8%nat ->
             first_call (Get s x) = Some (selectCall s (onlyDigits x)))
    as Hgood.
  { intros x Hlen. unfold Get, normalizeCEP.
    apply Nat.eqb_eq in Hlen. rewrite Hlen. reflexivity. }
  split.
  - intros Hd. split; [auto | intros w; rewrite (Hsame Hd); reflexivity].
  - split.
    + intros HG.
      destruct (Nat.eq_dec (String.length (onlyDigits raw)) 8%nat) as [L | L];
        destruct (Nat.eq_dec (String.length (onlyDigits raw')) 8%nat)
          as [L' | L'].
      * right. split; [exact L |].
        pose proof (Hgood raw L) as F. rewrite HG, (Hgood raw' L') in F.
        injection F as F. symmetry. exact F.
      * exfalso. pose proof (Hgood raw L) as F.
        rewrite HG, (Hbad raw' L') in F. discriminate F.
      * exfalso. pose proof (Hgood raw' L') as F.
        rewrite <- HG, (Hbad raw L) in F. discriminate F.
      * left. auto.
    + intros [[L L'] | [_ Hd]]; [| auto].
      rewrite (Hbad raw L), (Hbad raw' L'). reflexivity.
Qed.

(** X2: [formatCEP] and [normalizeCEP] undo each other on keys: formatting an
    8-digit key and normalizing the result gives the key back.  Formatting
    is idempotent, and a string that is not 8 bytes long (an already
    hyphenated code, the empty string) is left as it is. *)
Theorem formatCEP_normalizeCEP (key : string) :
  (String.length key = 8%nat -> all_digits key ->
   normalizeCEP (formatCEP key) = inr key)
  /\ formatCEP (formatCEP key) = formatCEP key
  /\ (String.length key <> 8%nat -> formatCEP key = key).
Proof.
  split; [| split].
  - intros Hlen Hdig. apply normalizeCEP_ok.
    destruct (formatCEP_8 key Hlen) as [_ [_ Hod]].
    rewrite Hod, Hdig. auto.
  - destruct (Nat.eq_dec (String.length key) 8%nat) as [Hlen | Hlen].
    + destruct (formatCEP_8 key Hlen) as [_ [H9 _]].
      unfold formatCEP at 1. rewrite H9. reflexivity.
    + unfold formatCEP. apply Nat.eqb_neq in Hlen. rewrite Hlen, Hlen.
      reflexivity.
  - intros Hlen. unfold formatCEP. apply Nat.eqb_neq in Hlen.
    rewrite Hlen. reflexivity.
Qed.

(** X3: The staleness check of [loadFromCache], on the ambient clock.  With a
    TTL of zero or less nothing is stale and the clock is not read.  With a
    positive TTL below the largest Duration, a row is stale exactly when the
    true distance from its timestamp to the clock reading exceeds the TTL:
    the clamping of [Sub] never changes the verdict.  A row stamped at or
    after the clock reading is never stale, a stale row stays stale at any
    later reading, and with the largest Duration as TTL nothing is stale. *)
Theorem expired_exactly s (updatedAt : Time) w :
  now s = time_Now ->
  (cacheTTL s <= 0 -> run h (expired s updatedAt) w = (false, w, []))
  /\ (0 < cacheTTL s ->
      run h (expired s updatedAt) w
      = (cacheTTL s <? time_Sub (h Time_Now w).1 updatedAt,
         (h Time_Now w).2, [Time_Now]))
  /\ (forall t : Time,
      0 < cacheTTL s < maxDuration ->
      (cacheTTL s < time_Sub t updatedAt
       <-> cacheTTL s < instant t - instant updatedAt))
  /\ (forall t : Time,
      0 < cacheTTL s -> instant t <= instant updatedAt ->
      (cacheTTL s <? time_Sub t updatedAt) = false)
  /\ (forall t t' : Time,
      instant t <= instant t' ->
      cacheTTL s < time_Sub t updatedAt -> cacheTTL s < time_Sub t' updatedAt)
  /\ (forall t : Time,
      maxDuration <= cacheTTL s ->
      (cacheTTL s <? time_Sub t updatedAt) = false).
Proof.
  intros Hclock.
  assert (forall t : Time,
             minDuration <= time_Sub t updatedAt <= maxDuration) as Hrange.
  { intros t. unfold time_Sub, maxDuration, minDuration.
    repeat match goal with
           | |- context [?a <? ?b] => destruct (Z.ltb_spec a b)
           end; lia. }
  split; [| split; [| split; [| split; [| split]]]].
  - intros Httl. apply (run_expired_off h _ _ _ Httl).
  - intros Httl. unfold expired. rewrite Hclock.
    destruct (0 <? cacheTTL s) eqn:E; [| apply Z.ltb_ge in E; lia].
    cbn. destruct (h Time_Now w) as [t w1]. reflexivity.
  - intros t Httl. unfold time_Sub, maxDuration, minDuration in *.
    repeat match goal with
           | |- context [?a <? ?b] => destruct (Z.ltb_spec a b)
           end; lia.
  - intros t Httl Hle. apply Z.ltb_ge.
    unfold time_Sub, maxDuration, minDuration.
    repeat match goal with
           | |- context [?a <? ?b] => destruct (Z.ltb_spec a b)
           end; lia.
  - intros t t' Hle. unfold time_Sub, maxDuration, minDuration.
    repeat match goal with
           | |- context [?a <? ?b] => destruct (Z.ltb_spec a b)
           end; lia.
  - intros t Hmax. apply Z.ltb_ge. specialize (Hrange t). lia.
Qed.

(** X4: [Get] keeps to its own collaborators: every call of a run goes to the
    service's database handle with its select or its upsert statement, to
    its client or to its logger; every upsert is stamped in UTC; the
    database is never pinged. *)
Theorem Get_calls_own_collaborators s raw w :
  now s = time_Now ->
  Forall (own_call s) (trace (run h (Get s raw) w)).
Proof.
  intros Hclock.
  destruct (normalizeCEP raw) as [e | key] eqn:Hn.
  - apply normalizeCEP_err in Hn as [_ Hlen].
    rewrite (run_Get_invalid h _ _ _ Hlen). constructor.
  - apply (Get_calls h (own_call s) s raw key w Hclock Hn); cbn; auto.
Qed.

(** The run of [Get] on a valid key, piece by piece: the cache read, then
    at most one provider call, then at most one stamped upsert, then at most
    one warning. *)
Lemma Get_trace_shape s raw key w :
  now s = time_Now ->
  normalizeCEP raw = inr key ->
  exists tr1 tr2 tr3 tr4 : list Call,
    trace (run h (Get s raw) w) = (tr1 ++ tr2 ++ tr3 ++ tr4)%list
    /\ (tr1 = [selectCall s key] \/ tr1 = [selectCall s key; Time_Now])
    /\ (tr2 = [] \/ exists req : Request, tr2 = [HTTP_Do (client s) req])
    /\ (tr3 = []
        \/ exists (p : bytes) (t : Time),
            tr3 = [Time_Now;
                   DB_Exec (db s) (upsertQuery (tableName s)) key p
                     (time_UTC t)])
    /\ (tr4 = [] \/ exists e, tr4 = [warnCall s key e]).
Proof.
  intros Hclock Hn.
  destruct (run h (loadFromCache s key) w) as [[c w1] tr1] eqn:Hload.
  pose proof (load_calls h _ _ _ _ _ _ Hclock Hload) as S1.
  destruct c as [e | [hit |]].
  - rewrite (run_Get_load_error h _ _ _ _ _ _ _ Hn Hload).
    exists tr1, [], [], []. rewrite !app_nil_r. repeat split; auto.
  - rewrite (run_Get_hit h _ _ _ _ _ _ _ Hn Hload).
    exists tr1, [], [], []. rewrite !app_nil_r. repeat split; auto.
  - destruct (run h (fetchFromViaCEP s key) w1) as [[f w2] tr2] eqn:Hf.
    assert (tr2 = [] \/ exists req : Request, tr2 = [HTTP_Do (client s) req])
      as S2.
    { destruct (fetch_calls h _ _ _ _ _ _ Hf)
        as [[-> _] | [req [_ [-> _]]]]; eauto. }
    destruct f as [e | r].
    + rewrite (run_Get_fetch_error h _ _ _ _ _ _ _ _ _ Hn Hload Hf).
      exists tr1, tr2, [], []. rewrite !app_nil_r. repeat split; auto.
    + destruct (run h (saveToCache s key r) w2) as [[sv w3] tr3] eqn:Hs.
      assert (tr3 = []
              \/ exists (p : bytes) (t : Time),
                  tr3 = [Time_Now;
                         DB_Exec (db s) (upsertQuery (tableName s)) key p
                           (time_UTC t)]) as S3.
      { destruct (save_calls h _ _ _ _ _ _ _ Hclock Hs)
          as [[-> _] | [p [t [_ ->]]]]; eauto. }
      destruct sv as [e |].
      * rewrite (run_Get_unsaved h _ _ _ _ _ _ _ _ _ _ _ _ Hn Hload Hf Hs).
        exists tr1, tr2, tr3, [warnCall s key e]. repeat split; eauto.
      * rewrite (run_Get_saved h _ _ _ _ _ _ _ _ _ _ _ Hn Hload Hf Hs).
        exists tr1, tr2, tr3, []. rewrite !app_nil_r. repeat split; auto.
Qed.

(** X5: The budget of one lookup: [Get] reads the store at most once, calls the
    provider at most once (it never retries), writes the store at most once,
    logs at most one line, reads the clock at most twice and never pings; a
    run has at most six calls, and when the input has 8 digits the first of
    them is the cache read. *)
Theorem Get_call_budget s raw w :
  now s = time_Now ->
  (count is_store_read (trace (run h (Get s raw) w)) <= 1
   /\ count is_provider_call (trace (run h (Get s raw) w)) <= 1
   /\ count is_store_write (trace (run h (Get s raw) w)) <= 1
   /\ count is_log_call (trace (run h (Get s raw) w)) <= 1
   /\ count is_clock_call (trace (run h (Get s raw) w)) <= 2
   /\ count is_ping (trace (run h (Get s raw) w)) = 0
   /\ length (trace (run h (Get s raw) w)) <= 6)%nat
  /\ (String.length (onlyDigits raw) = 8%nat ->
      exists rest : list Call,
        trace (run h (Get s raw) w)
        = selectCall s (onlyDigits raw) :: rest).
Proof.
  intros Hclock.
  destruct (normalizeCEP raw) as [e | key] eqn:Hn.
  - apply normalizeCEP_err in Hn as [_ Hlen].
    rewrite (run_Get_invalid h _ _ _ Hlen). cbn.
    split; [lia | intros Hbad; contradiction].
  - destruct (Get_trace_shape s raw key w Hclock Hn)
      as (tr1 & tr2 & tr3 & tr4 & -> & S1 & S2 & S3 & S4).
    apply normalizeCEP_ok in Hn as [-> _].
    destruct S1 as [-> | ->]; destruct S2 as [-> | [req ->]];
      destruct S3 as [-> | [p [t ->]]]; destruct S4 as [-> | [e ->]];
      (split; [cbn; lia | intros _; eexists; reflexivity]).
Qed.

Lemma classify_error (key : string) (reply : error + HttpResponse) e :
  classify key reply = inl e ->
  e = ErrNotFound
  \/ (exists code : Z, e = Errorf_d "viacep returned status" code /\ 400 <= code)
  \/ reply = inl e
  \/ exists b : bytes, json_Decode b = inl e.
Proof.
  unfold classify. destruct reply as [e' | resp].
  - intros [= ->]. auto.
  - destruct (StatusCode resp =? http_StatusNotFound);
      [intros [= <-]; auto |].
    destruct (400 <=? StatusCode resp) eqn:E400.
    + intros [= <-]. apply Z.leb_le in E400. eauto.
    + destruct (json_Decode (Body resp)) as [e' | body] eqn:Hb.
      * intros [= ->]. eauto 6.
      * destruct (Erro body); [intros [= <-]; auto |].
        destruct (String.eqb (Cep body) ""); discriminate.
Qed.

(** X6: When [Get] fails, nothing was written to the store and nothing was
    logged, and the error is one of these: the invalid-CEP error, for an
    input without exactly 8 digits; a cache-read error wrapping what the
    store reported, with no provider call made; or an error of the provider
    step, that is not-found, a status error with a code of 400 or more, or
    the very error the client, the body decoder or the request constructor
    returned. *)
Theorem Get_failure s raw w e :
  now s = time_Now ->
  result (run h (Get s raw) w) = inl e ->
  existsb is_store_write (trace (run h (Get s raw) w)) = false
  /\ existsb is_log_call (trace (run h (Get s raw) w)) = false
  /\ ((e = ErrInvalidCEP /\ String.length (onlyDigits raw) <> 8%nat
       /\ trace (run h (Get s raw) w) = [])
      \/ (exists e0, e = Errorf_w "query cache" e0
          /\ existsb is_provider_call (trace (run h (Get s raw) w)) = false)
      \/ e = ErrNotFound
      \/ (exists code : Z,
            e = Errorf_d "viacep returned status" code /\ 400 <= code)
      \/ (exists (req : Request) w0 w1,
            h (HTTP_Do (client s) req) w0 = (inl e, w1))
      \/ (exists b : bytes, json_Decode b = inl e)
      \/ (exists u : string,
            http_NewRequestWithContext http_MethodGet u = inl e)).
Proof.
  intros Hclock.
  destruct (normalizeCEP raw) as [e' | key] eqn:Hn.
  - apply normalizeCEP_err in Hn as [_ Hlen].
    rewrite (run_Get_invalid h _ _ _ Hlen). cbn. intros [= <-]. auto 6.
  - destruct (run h (loadFromCache s key) w) as [[c w1] tr1] eqn:Hload.
    assert (existsb is_store_write tr1 = false
            /\ existsb is_log_call tr1 = false
            /\ existsb is_provider_call tr1 = false) as (N1 & L1 & P1)
      by (destruct (load_calls h _ _ _ _ _ _ Hclock Hload) as [-> | ->];
          repeat split).
    destruct c as [e0 | [hit |]].
    + rewrite (run_Get_load_error h _ _ _ _ _ _ _ Hn Hload). cbn.
      intros [= <-]. repeat split; auto. right; left; eauto.
    + rewrite (run_Get_hit h _ _ _ _ _ _ _ Hn Hload). discriminate.
    + destruct (run h (fetchFromViaCEP s key) w1) as [[f w2] tr2] eqn:Hf.
      destruct f as [e0 | r].
      * rewrite (run_Get_fetch_error h _ _ _ _ _ _ _ _ _ Hn Hload Hf). cbn.
        intros [= <-]. rewrite !existsb_app, N1, L1.
        revert Hf. unfold fetchFromViaCEP.
        destruct (http_NewRequestWithContext http_MethodGet (viaCepURL key))
          as [e1 | req] eqn:Hreq.
        { intros [= <- _ <-]. repeat split; auto.
          do 6 right. eauto. }
        cbn [run bind call].
        destruct (h (HTTP_Do (client s) req) w1) as [reply w3] eqn:Hdo.
        pose proof (run_fetch_request h s key w1 w3 req reply Hreq Hdo) as Hf.
        unfold fetchFromViaCEP in Hf. rewrite Hreq in Hf. cbn [run bind call] in Hf.
        rewrite Hdo in Hf. rewrite Hf. intros [= Hcl _ <-].
        repeat split; auto.
        destruct (classify_error _ _ _ Hcl) as [-> | [Hst | [-> | Hdec]]];
          eauto 12.
      * destruct (run h (saveToCache s key r) w2) as [[[e0 |] w3] tr3] eqn:Hs.
        -- rewrite (run_Get_unsaved h _ _ _ _ _ _ _ _ _ _ _ _ Hn Hload Hf Hs).
           discriminate.
        -- rewrite (run_Get_saved h _ _ _ _ _ _ _ _ _ _ _ Hn Hload Hf Hs).
           discriminate.
Qed.

(** X7: A record that comes out of the provider fetch for an 8-byte key always
    carries a code: the provider's own when it sent one, else the key in
    hyphenated form, nine bytes long.  So does every record [Get] returns
    after a miss. *)
Theorem fetched_record_has_code s raw key w :
  (forall w0 w1 r (tr : list Call),
      String.length key = 8%nat ->
      run h (fetchFromViaCEP s key) w0 = (inr r, w1, tr) ->
      Cep r <> ""
      /\ (Cep r = formatCEP key -> String.length (Cep r) = 9%nat))
  /\ (forall w1 (tr1 : list Call) r,
      normalizeCEP raw = inr key ->
      run h (loadFromCache s key) w = (inr None, w1, tr1) ->
      result (run h (Get s raw) w) = inr r ->
      Cep r <> "").
Proof.
  assert (forall w0 w1 r (tr : list Call),
             String.length key = 8%nat ->
             run h (fetchFromViaCEP s key) w0 = (inr r, w1, tr) ->
             Cep r <> ""
             /\ (Cep r = formatCEP key -> String.length (Cep r) = 9%nat))
    as Hfetch.
  { intros w0 w1 r tr Hlen Hf.
    destruct (formatCEP_8 key Hlen) as [_ [H9 _]].
    split; [| intros ->; exact H9].
    destruct (fetch_calls h _ _ _ _ _ _ Hf)
      as [[_ [e He]] | [req [_ [_ Hcl]]]]; [discriminate He |].
    revert Hcl. unfold classify.
    destruct ((h (HTTP_Do (client s) req) w0).1) as [e | resp];
      [discriminate |].
    destruct (StatusCode resp =? http_StatusNotFound); [discriminate |].
    destruct (400 <=? StatusCode resp); [discriminate |].
    destruct (json_Decode (Body resp)) as [e | body]; [discriminate |].
    destruct (Erro body); [discriminate |].
    destruct (String.eqb (Cep body) "") eqn:Hc; intros [= ->].
    - cbn. intros Hemp. rewrite Hemp in H9. discriminate H9.
    - apply String.eqb_neq in Hc. exact Hc. }
  split; [exact Hfetch |].
  intros w1 tr1 r Hn Hload.
  destruct (run_Get_miss h s raw key w w1 _ Hn Hload) as [-> _].
  destruct (run h (fetchFromViaCEP s key) w1) as [[f w2] tr2] eqn:Hf.
  cbn. intros ->. apply normalizeCEP_ok in Hn as [_ Hlen].
  apply (Hfetch _ _ _ _ Hlen Hf).
Qed.

End Lookups.

(** ** The lookup against the cache table *)

(** X8: On a working cache table (reads and writes succeed, the select finds
    the row the upsert wrote under the same key) a lookup that missed and
    fetched leaves one row behind: the marshalled record, stamped with the
    clock reading in UTC.  If the codec gives that record back, the next
    lookup of the same digits, at the same clock reading, is served from the
    row: same record, no provider call, the world untouched. *)
Theorem second_lookup_is_served_from_the_table {rt : GoRuntime}
    (provider : string -> error + HttpResponse) (s : Service)
    (w : Doubles.World) (raw raw' key : string) (r : Response) (p : bytes) :
  now s = time_Now ->
  normalizeCEP raw = inr key ->
  normalizeCEP raw' = inr key ->
  Doubles.read_fault w = None ->
  Doubles.write_fault w = None ->
  Doubles.table w !! key = None ->
  result (run (Doubles.handler provider) (Get s raw) w) = inr r ->
  json_Marshal r = inr p ->
  json_Unmarshal p = inr r ->
  world (run (Doubles.handler provider) (Get s raw) w)
  = Doubles.upsert key p (time_UTC (Doubles.wall w)) (Doubles.count_call w)
  /\ run (Doubles.handler provider) (Get s raw')
       (world (run (Doubles.handler provider) (Get s raw) w))
     = (inr r, world (run (Doubles.handler provider) (Get s raw) w),
        selectCall s key :: (if 0 <? cacheTTL s then [Time_Now] else [])).
Proof.
  intros Hclock Hn Hn' Hrf Hwf Hnone Hres Hm Hun.
  set (h := Doubles.handler provider) in *.
  assert (run h (loadFromCache s key) w = (inr None, w, [selectCall s key]))
    as Hload.
  { rewrite (run_load_failed h s key w w sql_ErrNoRows); [reflexivity |].
    cbn. rewrite Hrf, Hnone. reflexivity. }
  destruct (run_Get_miss h s raw key w w _ Hn Hload) as [Hr _].
  rewrite Hres in Hr.
  destruct (run h (fetchFromViaCEP s key) w) as [[f w2] tr2] eqn:Hf.
  cbn in Hr. subst f.
  assert (w2 = Doubles.count_call w) as ->.
  { destruct (fetch_calls h _ _ _ _ _ _ Hf)
      as [[_ [e He]] | [req [Hreq _]]]; [discriminate He |].
    rewrite (run_fetch_request h s key w (Doubles.count_call w) req
               (provider (URL req)) Hreq eq_refl) in Hf.
    injection Hf as _ <- _. reflexivity. }
  set (w3 := Doubles.upsert key p (time_UTC (Doubles.wall w))
               (Doubles.count_call w)).
  assert (run h (saveToCache s key r) (Doubles.count_call w)
          = (None, w3,
             [Time_Now;
              DB_Exec (db s) (upsertQuery (tableName s)) key p
                (time_UTC (Doubles.wall w))])) as Hs.
  { unfold saveToCache. rewrite Hm, Hclock. cbn. rewrite Hwf. reflexivity. }
  rewrite (run_Get_saved h _ _ _ _ _ _ _ _ _ _ _ Hn Hload Hf Hs).
  cbn [world fst snd]. split; [reflexivity |].
  assert (h (selectCall s key) w3
          = (inr (p, time_UTC (Doubles.wall w)), w3)) as Hrow.
  { cbn. rewrite Hrf. unfold w3. cbn. rewrite lookup_insert_eq. reflexivity. }
  assert (run h (expired s (time_UTC (Doubles.wall w))) w3
          = (false, w3, if 0 <? cacheTTL s then [Time_Now] else []))
    as Hexp.
  { unfold expired. rewrite Hclock.
    destruct (0 <? cacheTTL s) eqn:E; [| reflexivity].
    cbn. apply Z.ltb_lt in E.
    assert ((cacheTTL s
             <? time_Sub (Doubles.wall w) (time_UTC (Doubles.wall w)))
            = false) as ->; [| reflexivity].
    apply Z.ltb_ge. unfold time_Sub, maxDuration, minDuration. cbn.
    rewrite Z.sub_diag.
    repeat match goal with
           | |- context [?a <? ?b] => destruct (Z.ltb_spec a b)
           end; lia. }
  apply (run_Get_hit h _ _ _ _ _ _ _ Hn').
  rewrite (run_load_row h _ _ _ _ _ _ _ _ _ Hrow Hexp), Hun. reflexivity.
Qed.

(** ** The configuration of [cmd/api/main.go] *)

Lemma escaped_byte (c : ascii) :
  Main.url_safe (Main.upperhex (Nat.div (nat_of_ascii c) 16)) = true
  /\ Main.url_safe (Main.upperhex (Nat.modulo (nat_of_ascii c) 16)) = true
  /\ ascii_of_nat
       (Main.unhex (Main.upperhex (Nat.div (nat_of_ascii c) 16)) * 16
        + Main.unhex (Main.upperhex (Nat.modulo (nat_of_ascii c) 16)))
     = c.
Proof.
  destruct c as [[] [] [] [] [] [] [] []]; vm_compute; repeat split.
Qed.

Lemma unreserved_plain (c : ascii) :
  Main.shouldEscape c = false <-> Main.unreserved c = true.
Proof.
  unfold Main.shouldEscape, Main.unreserved.
  destruct (Main.is_alnum c), (Main.is_mark c); cbn; intuition discriminate.
Qed.

Lemma unreserved_not_special (c : ascii) :
  Main.unreserved c = true ->
  Ascii.eqb c "+" = false /\ Ascii.eqb c "%" = false
  /\ Ascii.eqb c " " = false.
Proof.
  destruct c as [[] [] [] [] [] [] [] []]; vm_compute;
    first [discriminate | repeat split].
Qed.

Lemma before_append (sep : ascii) (s t : string) :
  Main.string_forallb (fun c => negb (Ascii.eqb c sep)) s = true ->
  Main.before sep (s +:+ String sep t) = s
  /\ Main.after sep (s +:+ String sep t) = t.
Proof.
  induction s as [| c s IH]; simpl.
  - rewrite Ascii.eqb_refl. auto.
  - intros H. apply andb_true_iff in H as [Hc Hs].
    apply negb_true_iff in Hc. rewrite Hc.
    destruct (IH Hs) as [-> ->]. auto.
Qed.

Lemma safe_without (sep : ascii) (s : string) :
  Main.url_safe sep = false ->
  Main.string_forallb Main.url_safe s = true ->
  Main.string_forallb (fun c => negb (Ascii.eqb c sep)) s = true.
Proof.
  intros Hsep. induction s as [| c s IH]; cbn; [reflexivity |].
  intros H. apply andb_true_iff in H as [Hc Hs].
  rewrite (IH Hs), andb_true_r. apply negb_true_iff.
  destruct (Ascii.eqb c sep) eqn:E; [| reflexivity].
  apply Ascii.eqb_eq in E. subst c. congruence.
Qed.

(** [url.QueryEscape] gives a string of unreserved characters, [%] and [+]
    only (so none of [:], [@], [/], [?], [&], [=] or a space), between one
    and three times as long as its input; a string of unreserved characters
    is returned as it is. *)
Lemma url_QueryEscape_safe (s : string) :
  Main.string_forallb Main.url_safe (Main.url_QueryEscape s) = true
  /\ (Main.string_forallb Main.unreserved s = true ->
      Main.url_QueryEscape s = s)
  /\ (String.length s <= String.length (Main.url_QueryEscape s)
      <= 3 * String.length s)%nat
  /\ Main.string_forallb
       (fun c => negb (existsb (Ascii.eqb c)
                         [":"; "@"; "/"; "?"; "&"; "="; " "]%char))
       (Main.url_QueryEscape s) = true.
Proof.
  induction s as [| c s (IH1 & IH2 & IH3 & IH4)];
    [cbn; repeat split; lia |].
  destruct (escaped_byte c) as (Hhi & Hlo & _).
  cbn [Main.url_QueryEscape].
  destruct (Main.shouldEscape c) eqn:Hesc.
  - assert (Main.unreserved c = false) as Hun.
    { destruct (Main.unreserved c) eqn:E; [| reflexivity].
      apply unreserved_plain in E. congruence. }
    destruct (Ascii.eqb c " ") eqn:Hsp.
    + split; [cbn; exact IH1 |]. split; [| split; [cbn; lia |]].
      * cbn. rewrite Hun. discriminate.
      * cbn. exact IH4.
    + split; [cbn [Main.string_forallb]; rewrite Hhi, Hlo, IH1; reflexivity |].
      split; [| split; [cbn; lia |]].
      * cbn. rewrite Hun. discriminate.
      * cbn [Main.string_forallb]. rewrite IH4, !andb_true_r.
        revert Hhi Hlo.
        generalize (Main.upperhex (Nat.div (nat_of_ascii c) 16)).
        generalize (Main.upperhex (Nat.modulo (nat_of_ascii c) 16)).
        intros lo hi Hhi Hlo.
        assert (forall x : ascii,
                   Main.url_safe x = true ->
                   negb (existsb (Ascii.eqb x)
                           [":"; "@"; "/"; "?"; "&"; "="; " "]%char) = true)
          as Hsafe
          by (intros [[] [] [] [] [] [] [] []]; vm_compute;
              first [discriminate | reflexivity]).
        rewrite (Hsafe hi Hhi), (Hsafe lo Hlo). reflexivity.
  - apply unreserved_plain in Hesc.
    split; [| split; [| split; [cbn; lia |]]].
    + cbn. unfold Main.url_safe at 1. rewrite Hesc. exact IH1.
    + cbn. intros H. apply andb_true_iff in H as [_ H].
      rewrite (IH2 H). reflexivity.
    + cbn [Main.string_forallb]. rewrite IH4, andb_true_r.
      revert Hesc. clear.
      destruct c as [[] [] [] [] [] [] [] []]; vm_compute;
        first [discriminate | reflexivity].
Qed.

(** Escaping loses nothing: the escaped form decodes back to the input, so
    two different strings never escape to the same one. *)
Lemma url_QueryEscape_injective (s t : string) :
  Main.unescape (Main.url_QueryEscape s) = s
  /\ (Main.url_QueryEscape s = Main.url_QueryEscape t -> s = t).
Proof.
  assert (forall x : string, Main.unescape (Main.url_QueryEscape x) = x)
    as Hround.
  { induction x as [| c x IH]; [reflexivity |].
    cbn [Main.url_QueryEscape].
    destruct (Main.shouldEscape c) eqn:Hesc.
    - destruct (Ascii.eqb c " ") eqn:Hsp.
      + apply Ascii.eqb_eq in Hsp. subst c. cbn. rewrite IH. reflexivity.
      + cbn [Main.unescape]. cbn [Ascii.eqb Bool.eqb].
        destruct (escaped_byte c) as (_ & _ & ->). rewrite IH. reflexivity.
    - apply unreserved_plain in Hesc.
      destruct (unreserved_not_special c Hesc) as (Hp & Hq & _).
      cbn [Main.unescape]. rewrite Hp, Hq, IH. reflexivity. }
  split; [apply Hround |].
  intros Heq. rewrite <- (Hround s), <- (Hround t), Heq. reflexivity.
Qed.

(** X9: In the DSN [buildDSN] assembles, the user ends at the first [:] after
    the scheme and the password at the first [@] after that, whatever bytes
    the credentials hold; what follows is the host, port, escaped database
    and SSL mode as given; and the two credentials decode back from their
    places. *)
Theorem buildDSN_fields (host port user password database sslMode : string) :
  exists rest : string,
    Main.buildDSN host port user password database sslMode
    = "postgres://" +:+ rest
    /\ Main.before ":" rest = Main.url_QueryEscape user
    /\ Main.before "@" (Main.after ":" rest) = Main.url_QueryEscape password
    /\ Main.after "@" (Main.after ":" rest)
       = host +:+ ":" +:+ port +:+ "/" +:+ Main.url_QueryEscape database
           +:+ "?sslmode=" +:+ sslMode
    /\ Main.unescape (Main.before ":" rest) = user
    /\ Main.unescape (Main.before "@" (Main.after ":" rest)) = password.
Proof.
  set (tail := host +:+ ":" +:+ port +:+ "/" +:+ Main.url_QueryEscape database
                 +:+ "?sslmode=" +:+ sslMode).
  set (mid := Main.url_QueryEscape password +:+ String "@" tail).
  exists (Main.url_QueryEscape user +:+ String ":" mid).
  destruct (url_QueryEscape_safe user) as (Su & _).
  destruct (url_QueryEscape_safe password) as (Sp & _).
  destruct (before_append ":" (Main.url_QueryEscape user) mid
              (safe_without ":" _ eq_refl Su)) as [B1 A1].
  destruct (before_append "@" (Main.url_QueryEscape password) tail
              (safe_without "@" _ eq_refl Sp)) as [B2 A2].
  rewrite B1, A1. subst mid. rewrite B2, A2.
  repeat split; try reflexivity;
    apply (proj1 (url_QueryEscape_injective _ "")).
Qed.

Section Configuration.
Context {os : Main.OsRuntime}.

Lemma buildDSN_not_empty (host port user password database sslMode : string) :
  Main.buildDSN host port user password database sslMode <> "".
Proof. unfold Main.buildDSN. cbn. discriminate. Qed.

(** X10: [loadConfig] and the database variables.  A non-blank [DB_DSN] wins: it
    is taken, trimmed, and the other database variables are not looked at.
    With a blank [DB_DSN] the load fails exactly when the host, the user or
    the database name is blank, and otherwise the DSN is built from the
    parts, the password taken untrimmed.  A successful load never leaves the
    DSN empty, the only error is the one for incomplete variables, and the
    three server timeouts are fixed. *)
Theorem loadConfig_database (getenv : string -> string) :
  (Main.strings_TrimSpace (getenv "DB_DSN") <> "" ->
   (Main.loadConfig getenv).2 = None
   /\ Main.dbDSN (Main.loadConfig getenv).1
      = Main.strings_TrimSpace (getenv "DB_DSN")
   /\ forall getenv' : string -> string,
       getenv' "DB_DSN" = getenv "DB_DSN" ->
       getenv' "HTTP_ADDR" = getenv "HTTP_ADDR" ->
       getenv' "CACHE_TTL" = getenv "CACHE_TTL" ->
       getenv' "HTTP_CLIENT_TIMEOUT" = getenv "HTTP_CLIENT_TIMEOUT" ->
       Main.loadConfig getenv' = Main.loadConfig getenv)
  /\ (Main.strings_TrimSpace (getenv "DB_DSN") = "" ->
      ((Main.loadConfig getenv).2 = Some Main.incompleteDB
       <-> (Main.strings_TrimSpace (getenv "DB_HOST") = ""
            \/ Main.strings_TrimSpace (getenv "DB_USER") = ""
            \/ Main.strings_TrimSpace (getenv "DB_NAME") = ""))
      /\ ((Main.loadConfig getenv).2 = None ->
          Main.dbDSN (Main.loadConfig getenv).1
          = Main.buildDSN (Main.strings_TrimSpace (getenv "DB_HOST"))
              (Main.getEnvOrDefault getenv "DB_PORT" "5432")
              (Main.strings_TrimSpace (getenv "DB_USER"))
              (getenv "DB_PASSWORD")
              (Main.strings_TrimSpace (getenv "DB_NAME"))
              (Main.getEnvOrDefault getenv "DB_SSLMODE" "disable")))
  /\ ((Main.loadConfig getenv).2 = None ->
      Main.dbDSN (Main.loadConfig getenv).1 <> "")
  /\ ((Main.loadConfig getenv).2 = None
      \/ (Main.loadConfig getenv).2 = Some Main.incompleteDB)
  /\ Main.readTimeout (Main.loadConfig getenv).1 = 15000000000
  /\ Main.writeTimeout (Main.loadConfig getenv).1 = 15000000000
  /\ Main.idleTimeout (Main.loadConfig getenv).1 = 60000000000.
Proof.
  unfold Main.loadConfig. cbn [Main.dbDSN].
  destruct (String.eqb (Main.strings_TrimSpace (getenv "DB_DSN")) "")
    eqn:Hdsn; cbn [negb].
  - apply String.eqb_eq in Hdsn.
    destruct (String.eqb (Main.strings_TrimSpace (getenv "DB_HOST")) "")
      eqn:Hh;
      destruct (String.eqb (Main.strings_TrimSpace (getenv "DB_USER")) "")
        eqn:Hu;
      destruct (String.eqb (Main.strings_TrimSpace (getenv "DB_NAME")) "")
        eqn:Hd;
      cbn [orb fst snd Main.set_dbDSN Main.dbDSN Main.readTimeout
           Main.writeTimeout Main.idleTimeout];
      rewrite ?String.eqb_eq in *; rewrite ?String.eqb_neq in *;
      (split; [intros Hne; contradiction |]);
      (split; [intros _; split; [split; [auto | auto; try discriminate] |] |]);
      try (intros [= ]); try (intros [Hx | [Hx | Hx]]; contradiction);
      try reflexivity;
      repeat split; auto; try discriminate; try reflexivity;
      try (intros _; apply buildDSN_not_empty).
  - apply String.eqb_neq in Hdsn. cbn [fst snd Main.dbDSN].
    split; [intros _; split; [reflexivity | split; [reflexivity |]] |].
    + intros getenv' E1 E2 E3 E4. unfold Main.getEnvOrDefault.
      rewrite E1, E2, E3, E4.
      destruct (String.eqb (Main.strings_TrimSpace (getenv "DB_DSN")) "")
        eqn:Hdsn'; [apply String.eqb_eq in Hdsn'; contradiction |].
      reflexivity.
    + split; [intros He; contradiction |].
      repeat split; auto.
Qed.

(** X11: The [CACHE_TTL] setting.  Blank or not a duration, it falls back to 24
    hours; a duration is taken as it is.  In the service built from the
    configuration, a setting of zero or less switches expiry off: no row is
    ever stale and the clock is not read. *)
Theorem CACHE_TTL_setting {rt : GoRuntime} {W : Type} (h : Handler W)
    (getenv : string -> string) :
  (Main.strings_TrimSpace (getenv "CACHE_TTL") = "" ->
   Main.cacheTTL (Main.loadConfig getenv).1 = 86400000000000)
  /\ (forall e,
      Main.time_ParseDuration (Main.strings_TrimSpace (getenv "CACHE_TTL"))
      = inl e ->
      Main.cacheTTL (Main.loadConfig getenv).1 = 86400000000000)
  /\ (forall d : Duration,
      Main.strings_TrimSpace (getenv "CACHE_TTL") <> "" ->
      Main.time_ParseDuration (Main.strings_TrimSpace (getenv "CACHE_TTL"))
      = inr d ->
      Main.cacheTTL (Main.loadConfig getenv).1 = d)
  /\ (forall (d : sql_DB) (c : httpClient) (lg : option Logger)
             (updatedAt : Time) (w : W),
      Main.cacheTTL (Main.loadConfig getenv).1 <= 0 ->
      run h (expired
               (NewService d c (Main.cacheTTL (Main.loadConfig getenv).1) lg)
               updatedAt) w
      = (false, w, [])).
Proof.
  assert (Main.cacheTTL (Main.loadConfig getenv).1
          = Main.parseDurationOrDefault (getenv "CACHE_TTL")
              (24 * Main.time_Hour)) as Httl.
  { unfold Main.loadConfig. cbn [Main.dbDSN].
    destruct (negb _); [reflexivity |].
    destruct (_ || _); reflexivity. }
  rewrite Httl. unfold Main.parseDurationOrDefault.
  split; [| split; [| split]].
  - intros ->. reflexivity.
  - intros e ->. destruct (String.eqb _ ""); reflexivity.
  - intros d Hne ->. apply String.eqb_neq in Hne. rewrite Hne. reflexivity.
  - intros d c lg updatedAt w Hle.
    apply (run_expired_off h _ updatedAt w). exact Hle.
Qed.

End Configuration.

(** ** The HTTP handlers of [cmd/api/main.go] *)

Section Http.
Context {rt : GoRuntime} {enc : Main.JSONEncoder} {W : Type} (h : Handler W).

Implicit Types (app : Main.application) (w : Main.ResponseWriter) (e : error).

(** [writeJSON] on a writer without a status yet: the status and the JSON
    content type are set whatever happens next; when the data encodes and
    the connection holds, the body is the encoding and nothing is logged;
    an encoding or write failure costs one line on the standard logger. *)
Lemma run_writeJSON w (code : Z) (data : Main.Payload) (w0 : W) :
  Main.status w = None ->
  Main.status (result (run h (Main.writeJSON w code data) w0)) = Some code
  /\ Main.header (result (run h (Main.writeJSON w code data) w0))
     = Main.jsonHeader w
  /\ (trace (run h (Main.writeJSON w code data) w0) = []
      \/ exists e,
          trace (run h (Main.writeJSON w code data) w0)
          = [Log_Printf Main.log_std (Main.encodeFailureLine e)])
  /\ (forall b : bytes,
      Main.broken w = None -> Main.body w = [] ->
      Main.json_Encode data = inr b ->
      run h (Main.writeJSON w code data) w0
      = (Main.mkWriter (Main.jsonHeader w) (Some code) b None, w0, [])).
Proof.
  intros Hst. unfold Main.writeJSON, Main.Encode, Main.Write,
    Main.WriteHeader, Main.Header_Set, Main.jsonHeader.
  cbn [Main.status Main.header Main.body Main.broken]. rewrite Hst.
  cbn [Main.status Main.header Main.body Main.broken].
  destruct (Main.json_Encode data) as [e | b]; cbn [run bind call].
  - destruct (h (Log_Printf _ _) w0) as [[] w1]. cbn.
    repeat split; eauto. intros b _ _ [=].
  - destruct (Main.broken w) as [e |] eqn:Hbr; cbn [run bind call].
    + destruct (h (Log_Printf _ _) w0) as [[] w1]. cbn.
      repeat split; eauto. intros b0 [=].
    + cbn. repeat split; auto.
      intros b0 _ Hb [= <-]. rewrite Hb. reflexivity.
Qed.

(** X12: When the response cannot be written, because the data does not
    encode or because the connection is broken, [writeJSON] has still set
    the content type and the status, leaves the body as it was, and reports
    the failure in one line on the standard logger, not the application's. *)
Theorem writeJSON_failure_is_logged w (code : Z) (data : Main.Payload)
    (w0 : W) :
  Main.status w = None ->
  (forall e,
      Main.json_Encode data = inl e ->
      run h (Main.writeJSON w code data) w0
      = (Main.mkWriter (Main.jsonHeader w) (Some code) (Main.body w)
           (Main.broken w),
         (h (Log_Printf Main.log_std (Main.encodeFailureLine e)) w0).2,
         [Log_Printf Main.log_std (Main.encodeFailureLine e)]))
  /\ (forall (b : bytes) e,
      Main.json_Encode data = inr b ->
      Main.broken w = Some e ->
      run h (Main.writeJSON w code data) w0
      = (Main.mkWriter (Main.jsonHeader w) (Some code) (Main.body w)
           (Some e),
         (h (Log_Printf Main.log_std (Main.encodeFailureLine e)) w0).2,
         [Log_Printf Main.log_std (Main.encodeFailureLine e)])).
Proof.
  intros Hst. unfold Main.writeJSON, Main.Encode, Main.Write,
    Main.WriteHeader, Main.Header_Set, Main.jsonHeader.
  cbn [Main.status Main.header Main.body Main.broken]. rewrite Hst.
  cbn [Main.status Main.header Main.body Main.broken].
  split.
  - intros e ->. cbn [run bind call].
    destruct (h (Log_Printf _ _) w0) as [[] w1]. reflexivity.
  - intros b e -> ->. cbn [run bind call].
    destruct (h (Log_Printf _ _) w0) as [[] w1]. reflexivity.
Qed.

(** X13: A request for anything but 8 digits is answered 400 with the
    invalid-CEP message as its [error] field; no collaborator is called and
    nothing is logged. *)
Theorem cepHandler_bad_request app w (cepValue : string) (w0 : W)
    (b : bytes) :
  Main.fresh w ->
  String.length (onlyDigits cepValue) <> 8%nat ->
  Main.json_Encode
    (Main.MapData {[ "error" := "invalid CEP: expected exactly 8 digits" ]})
  = inr b ->
  run h (Main.cepHandler app w cepValue) w0
  = (Main.mkWriter (Main.jsonHeader w) (Some 400) b None, w0, []).
Proof.
  intros (Hst & Hbr & Hbody) Hlen Henc. unfold Main.cepHandler.
  rewrite run_bind, (run_Get_invalid h _ _ _ Hlen).
  cbn [errors_Is error_eqb error_string].
  destruct (run_writeJSON w Main.http_StatusBadRequest
              (Main.MapData
                 {[ "error" := "invalid CEP: expected exactly 8 digits" ]})
              w0 Hst) as (_ & _ & _ & Hrun).
  rewrite (Hrun b Hbr Hbody Henc). reflexivity.
Qed.

(** X14: Every request gets exactly one of the statuses 200, 400, 404 and 500,
    with the JSON content type; the status is 200 exactly when the lookup
    returned a record; and beyond the lookup's own calls the handler makes
    at most two, both log lines. *)
Theorem cepHandler_status app w (cepValue : string) (w0 : W) :
  Main.status w = None ->
  exists (code : Z) (rest : list Call),
    Main.status (result (run h (Main.cepHandler app w cepValue) w0))
    = Some code
    /\ (code = 200 \/ code = 400 \/ code = 404 \/ code = 500)
    /\ (code = 200
        <-> exists r : Response,
            result (run h (Get (Main.service app) cepValue) w0) = inr r)
    /\ Main.header (result (run h (Main.cepHandler app w cepValue) w0))
       = Main.jsonHeader w
    /\ trace (run h (Main.cepHandler app w cepValue) w0)
       = (trace (run h (Get (Main.service app) cepValue) w0) ++ rest)%list
    /\ forallb is_log_call rest = true
    /\ (length rest <= 2)%nat.
Proof.
  intros Hst. unfold Main.cepHandler. rewrite run_bind.
  destruct (run h (Get (Main.service app) cepValue) w0)
    as [[got w1] tr] eqn:Hget.
  cbn [result trace fst snd].
  assert (forall (code : Z) (data : Main.Payload) (pre : list Call)
                 (wa : W),
             forallb is_log_call pre = true -> (length pre <= 1)%nat ->
             exists rest : list Call,
               Main.status (result (run h (Main.writeJSON w code data) wa))
               = Some code
               /\ Main.header
                    (result (run h (Main.writeJSON w code data) wa))
                  = Main.jsonHeader w
               /\ (pre ++ trace (run h (Main.writeJSON w code data) wa))%list
                  = rest
               /\ forallb is_log_call rest = true
               /\ (length rest <= 2)%nat) as Hwrite.
  { intros code data pre wa Hpre Hlen.
    destruct (run_writeJSON w code data wa Hst) as (H1 & H2 & H3 & _).
    eexists. repeat split; eauto.
    - destruct H3 as [-> | [e ->]]; rewrite forallb_app, Hpre; reflexivity.
    - destruct H3 as [-> | [e ->]]; rewrite length_app; cbn; lia. }
  destruct got as [err | found].
  - destruct (errors_Is err ErrInvalidCEP).
    + destruct (Hwrite Main.http_StatusBadRequest
                  (Main.MapData {[ "error" := error_string err ]}) [] w1
                  eq_refl ltac:(cbn; lia)) as (rest & H1 & H2 & H3 & H4 & H5).
      destruct (run h (Main.writeJSON w _ _) w1) as [[wr w2] tr2].
      exists 400, rest. cbn in *. subst rest.
      repeat split; auto; try discriminate. intros [r [=]].
    + destruct (errors_Is err ErrNotFound).
      * destruct (Hwrite http_StatusNotFound
                    (Main.MapData {[ "error" := error_string err ]}) [] w1
                    eq_refl ltac:(cbn; lia))
          as (rest & H1 & H2 & H3 & H4 & H5).
        destruct (run h (Main.writeJSON w _ _) w1) as [[wr w2] tr2].
        exists 404, rest. cbn in *. subst rest.
        repeat split; auto; try discriminate. intros [r [=]].
      * cbn [run bind call].
        destruct (h (Log_Printf (Main.logger app)
                       (Main.lookupFailureLine cepValue err)) w1)
          as [[] w2].
        destruct (Hwrite Main.http_StatusInternalServerError
                    (Main.MapData {[ "error" := "falha ao consultar cep" ]})
                    [Log_Printf (Main.logger app)
                       (Main.lookupFailureLine cepValue err)] w2
                    eq_refl ltac:(cbn; lia))
          as (rest & H1 & H2 & H3 & H4 & H5).
        destruct (run h (Main.writeJSON w _ _) w2) as [[wr w3] tr2].
        exists 500, rest. cbn in *. subst rest.
        repeat split; auto; try discriminate. intros [r [=]].
  - destruct (Hwrite Main.http_StatusOK (Main.RecordData found) [] w1
                eq_refl ltac:(cbn; lia)) as (rest & H1 & H2 & H3 & H4 & H5).
    destruct (run h (Main.writeJSON w _ _) w1) as [[wr w2] tr2].
    exists 200, rest. cbn in *. subst rest.
    repeat split; eauto.
Qed.




(** X17: The health check looks at the store only: it pings the database once
    and calls nothing else but, at most, one log line; it answers 200 with
    [status: ok] exactly when the ping succeeds, and otherwise 503 with
    [status: error] and the ping's error text as [detail]. *)
Theorem healthHandler_reports_the_store app w (w0 : W) :
  Main.status w = None ->
  (Main.status (result (run h (Main.healthHandler app w) w0)) = Some 200
   <-> (h (DB_Ping (db (Main.service app))) w0).1 = None)
  /\ (Main.status (result (run h (Main.healthHandler app w) w0)) = Some 200
      \/ Main.status (result (run h (Main.healthHandler app w) w0))
         = Some 503)
  /\ (exists rest : list Call,
        trace (run h (Main.healthHandler app w) w0)
        = DB_Ping (db (Main.service app)) :: rest
        /\ forallb is_log_call rest = true /\ (length rest <= 1)%nat)
  /\ (forall b : bytes,
      Main.fresh w ->
      (h (DB_Ping (db (Main.service app))) w0).1 = None ->
      Main.json_Encode (Main.MapData {[ "status" := "ok" ]}) = inr b ->
      result (run h (Main.healthHandler app w) w0)
      = Main.mkWriter (Main.jsonHeader w) (Some 200) b None)
  /\ (forall e (b : bytes),
      Main.fresh w ->
      (h (DB_Ping (db (Main.service app))) w0).1 = Some e ->
      Main.json_Encode
        (Main.MapData
           (<["detail" := error_string e]> {[ "status" := "error" ]}))
      = inr b ->
      result (run h (Main.healthHandler app w) w0)
      = Main.mkWriter (Main.jsonHeader w) (Some 503) b None).
Proof.
  intros Hst. unfold Main.healthHandler, Ping. cbn [run bind call].
  destruct (h (DB_Ping (db (Main.service app))) w0) as [[e |] w1] eqn:Hping;
    cbn [fst].
  - rewrite insert_singleton_eq.
    destruct (run_writeJSON w Main.http_StatusServiceUnavailable
                (Main.MapData
                   (<["detail" := error_string e]> {[ "status" := "error" ]}))
                w1 Hst) as (H1 & _ & H3 & Hrun).
    destruct (run h (Main.writeJSON w _ _) w1) as [[wr w2] t2] eqn:Hw.
    cbn [result trace fst snd] in *.
    split; [rewrite H1; split; discriminate |].
    split; [right; exact H1 |].
    split; [exists t2; split; [reflexivity |];
            destruct H3 as [-> | [e' ->]]; split; cbn; auto; lia |].
    split; [intros b _ [=] |].
    intros e' b (_ & Hbr & Hbody) [= <-] Henc.
    specialize (Hrun b Hbr Hbody Henc). injection Hrun as -> _ _.
    reflexivity.
  - destruct (run_writeJSON w Main.http_StatusOK
                (Main.MapData {[ "status" := "ok" ]}) w1 Hst)
      as (H1 & _ & H3 & Hrun).
    destruct (run h (Main.writeJSON w _ _) w1) as [[wr w2] t2] eqn:Hw.
    cbn [result trace fst snd] in *.
    split; [rewrite H1; split; reflexivity |].
    split; [left; exact H1 |].
    split; [exists t2; split; [reflexivity |];
            destruct H3 as [-> | [e' ->]]; split; cbn; auto; lia |].
    split; [| intros e b _ [=]].
    intros b (_ & Hbr & Hbody) _ Henc.
    specialize (Hrun b Hbr Hbody Henc). injection Hrun as -> _ _.
    reflexivity.
Qed.

End Http.

(** ** The further statements at work on the doubles *)
Module MoreWitnesses.
Import Doubles MainDoubles.

Lemma Get_reads_digits_only_witness :
  Get (svc hour) "12345-678" = Get (svc hour) "CEP 12.345.678"
  /\ forall w : World,
      run pg (Get (svc hour) "12345-678") w
      = run pg (Get (svc hour) "CEP 12.345.678") w.
Proof.
  apply (proj1 (Get_reads_digits_only pg (svc hour) "12345-678"
                  "CEP 12.345.678")).
  reflexivity.
Defined.

Lemma formatCEP_normalizeCEP_witness :
  normalizeCEP (formatCEP "76543210") = inr "76543210"
  /\ formatCEP "76543-210" = "76543-210".
Proof.
  split.
  - apply (proj1 (formatCEP_normalizeCEP "76543210")); reflexivity.
  - apply (proj2 (proj2 (formatCEP_normalizeCEP "76543-210"))).
    vm_compute; discriminate.
Defined.

(** A row two hours old against a TTL of one hour, a TTL of zero, and a row
    stamped after the clock reading. *)
Lemma expired_exactly_witness :
  run pg (expired (svc hour) (later (- hour) t0)) emptyWorld
  = (true, emptyWorld, [Time_Now])
  /\ run pg (expired (svc 0) (later (- hour) t0)) emptyWorld
     = (false, emptyWorld, [])
  /\ (hour <? time_Sub t0 (later hour t0)) = false
  /\ (hour < time_Sub (later hour t0) (later (- hour) t0)
      <-> hour < instant (later hour t0) - instant (later (- hour) t0)).
Proof.
  split; [| split; [| split]].
  - refine (proj1 (proj2 (expired_exactly pg (svc hour) (later (- hour) t0)
              emptyWorld _)) _); [reflexivity | vm_compute; reflexivity].
  - refine (proj1 (expired_exactly pg (svc 0) (later (- hour) t0)
              emptyWorld _) _); [reflexivity | vm_compute; discriminate].
  - refine (proj1 (proj2 (proj2 (proj2 (expired_exactly pg (svc hour)
              (later hour t0) emptyWorld _)))) t0 _ _);
      [reflexivity | vm_compute; reflexivity | vm_compute; discriminate].
  - refine (proj1 (proj2 (proj2 (expired_exactly pg (svc hour)
              (later (- hour) t0) emptyWorld _))) (later hour t0) _);
      [reflexivity | vm_compute; split; reflexivity].
Defined.

Lemma Get_calls_own_collaborators_witness :
  Forall (own_call (svc hour))
    (trace (run pg (Get (svc hour) "76543-210") emptyWorld)).
Proof.
  apply (Get_calls_own_collaborators pg (svc hour) "76543-210" emptyWorld).
  reflexivity.
Defined.

Lemma Get_call_budget_witness :
  (count is_provider_call
     (trace (run pg (Get (svc hour) "76543-210") emptyWorld)) <= 1)%nat
  /\ exists rest : list Call,
      trace (run pg (Get (svc hour) "76543-210") emptyWorld)
      = selectCall (svc hour) (onlyDigits "76543-210") :: rest.
Proof.
  split.
  - refine (proj1 (proj2 (proj1 (Get_call_budget pg (svc hour) "76543-210"
              emptyWorld _)))); reflexivity.
  - refine (proj2 (Get_call_budget pg (svc hour) "76543-210" emptyWorld _)
              _); reflexivity.
Defined.

(** A provider answering 500: the lookup fails with the status error,
    nothing is written, nothing is logged. *)
Lemma Get_failure_witness :
  existsb is_store_write
    (trace (run pg (Get (svc hour) "50000000") emptyWorld)) = false
  /\ existsb is_log_call
       (trace (run pg (Get (svc hour) "50000000") emptyWorld)) = false.
Proof.
  pose proof (Get_failure pg (svc hour) "50000000" emptyWorld
                (Errorf_d "viacep returned status" 500) eq_refl eq_refl)
    as (Hw & Hl & _).
  split; [exact Hw | exact Hl].
Defined.

Lemma fetched_record_has_code_witness :
  Cep (set_Cep "11111-111" semCep) <> "".
Proof.
  refine (proj2 (fetched_record_has_code pg (svc hour) "11111-111" "11111111"
            emptyWorld) emptyWorld [selectCall (svc hour) "11111111"]
            (set_Cep "11111-111" semCep) _ _ _); reflexivity.
Defined.

Lemma second_lookup_is_served_from_the_table_witness :
  world (run pg (Get (svc hour) "76543-210") emptyWorld)
  = upsert "76543210" (payloadOf "ruaNova") (later hour t0)
      (count_call emptyWorld)
  /\ run pg (Get (svc hour) "76543210")
       (world (run pg (Get (svc hour) "76543-210") emptyWorld))
     = (inr ruaNova, world (run pg (Get (svc hour) "76543-210") emptyWorld),
        [selectCall (svc hour) "76543210"; Time_Now]).
Proof.
  refine (second_lookup_is_served_from_the_table viaCep (svc hour) emptyWorld
            "76543-210" "76543210" "76543210" ruaNova (payloadOf "ruaNova")
            _ _ _ _ _ _ _ _ _); reflexivity.
Defined.

(** A DSN given whole wins over the parts; parts without a user fail. *)
Lemma loadConfig_database_witness :
  ((Main.loadConfig (os_Getenv envWithDSN)).2 = None
   /\ Main.dbDSN (Main.loadConfig (os_Getenv envWithDSN)).1
      = "postgres://app:secret@db:5432/cep?sslmode=disable")
  /\ ((Main.loadConfig (os_Getenv envWithoutUser)).2
      = Some Main.incompleteDB
      <-> (trim (os_Getenv envWithoutUser "DB_HOST") = ""
           \/ trim (os_Getenv envWithoutUser "DB_USER") = ""
           \/ trim (os_Getenv envWithoutUser "DB_NAME") = ""))
  /\ Main.dbDSN (Main.loadConfig (os_Getenv envWithParts)).1 <> "".
Proof.
  split; [| split].
  - pose proof (proj1 (loadConfig_database (os_Getenv envWithDSN))) as H.
    destruct H as (Hnone & Hdsn & _); [vm_compute; discriminate |].
    split; [exact Hnone | exact Hdsn].
  - refine (proj1 (proj1 (proj2 (loadConfig_database
              (os_Getenv envWithoutUser))) _)). reflexivity.
  - refine (proj1 (proj2 (proj2 (loadConfig_database
              (os_Getenv envWithParts)))) _). reflexivity.
Defined.

(** A record the encoder refuses, and a connection that was reset. *)
Lemma writeJSON_failure_is_logged_witness :
  run pg (Main.writeJSON blank 200 (Main.RecordData semCep)) emptyWorld
  = (Main.mkWriter (Main.jsonHeader blank) (Some 200) [] None,
     append_log "erro ao escrever resposta json: json: unsupported value"
       emptyWorld,
     [Log_Printf Main.log_std
        "erro ao escrever resposta json: json: unsupported value"])
  /\ Main.status
       (result (run pg (Main.writeJSON (Main.mkWriter ∅ None [] (Some connReset))
                          404 (Main.RecordData ruaNova)) emptyWorld))
     = Some 404.
Proof.
  split.
  - refine (proj1 (writeJSON_failure_is_logged pg blank 200
              (Main.RecordData semCep) emptyWorld _)
              (ForeignError "json: unsupported value") _); reflexivity.
  - rewrite (proj2 (writeJSON_failure_is_logged pg
              (Main.mkWriter ∅ None [] (Some connReset)) 404
              (Main.RecordData ruaNova) emptyWorld ltac:(reflexivity))
              (payloadOf "ruaNova") connReset ltac:(reflexivity)
              ltac:(reflexivity)).
    reflexivity.
Defined.

Lemma cepHandler_bad_request_witness :
  run pg (Main.cepHandler (app hour) blank "12-345") emptyWorld
  = (Main.mkWriter (Main.jsonHeader blank) (Some 400)
       (payloadOf "error=invalid CEP: expected exactly 8 digits") None,
     emptyWorld, []).
Proof.
  apply (cepHandler_bad_request pg (app hour) blank "12-345" emptyWorld).
  - repeat split.
  - vm_compute; discriminate.
  - reflexivity.
Defined.

Lemma cepHandler_status_witness :
  exists (code : Z) (rest : list Call),
    Main.status
      (result (run pg (Main.cepHandler (app hour) blank "76543-210")
                 emptyWorld)) = Some code
    /\ (code = 200 \/ code = 400 \/ code = 404 \/ code = 500)
    /\ (code = 200
        <-> exists r : Response,
            result (run pg (Get (Main.service (app hour)) "76543-210")
                      emptyWorld) = inr r)
    /\ Main.header
         (result (run pg (Main.cepHandler (app hour) blank "76543-210")
                    emptyWorld)) = Main.jsonHeader blank
    /\ trace (run pg (Main.cepHandler (app hour) blank "76543-210")
                emptyWorld)
       = (trace (run pg (Get (Main.service (app hour)) "76543-210")
                   emptyWorld) ++ rest)%list
    /\ forallb is_log_call rest = true
    /\ (length rest <= 2)%nat.
Proof.
  apply (cepHandler_status pg (app hour) blank "76543-210" emptyWorld).
  reflexivity.
Defined.



(** The database answers the ping, or the connection is gone. *)
Lemma healthHandler_reports_the_store_witness :
  result (run pg (Main.healthHandler (app hour) blank) emptyWorld)
  = Main.mkWriter (Main.jsonHeader blank) (Some 200)
      (payloadOf "status=ok") None
  /\ result (run pg (Main.healthHandler (app hour) blank)
               (brokenReads connReset))
     = Main.mkWriter (Main.jsonHeader blank) (Some 503)
         (payloadOf "status=error;detail=read tcp: connection reset by peer")
         None.
Proof.
  split.
  - refine (proj1 (proj2 (proj2 (proj2 (healthHandler_reports_the_store pg
              (app hour) blank emptyWorld _))))
              (payloadOf "status=ok") _ _ _);
      first [reflexivity | repeat split].
  - refine (proj2 (proj2 (proj2 (proj2 (healthHandler_reports_the_store pg
              (app hour) blank (brokenReads connReset) _))))
              connReset
              (payloadOf
                 "status=error;detail=read tcp: connection reset by peer")
              _ _ _); first [reflexivity | repeat split].
Defined.

(** [CACHE_TTL=1h] is taken, [CACHE_TTL=soon] falls back to 24 hours, and
    [CACHE_TTL=0] makes a service for which a row a thousand hours old is
    not stale. *)
Lemma CACHE_TTL_setting_witness :
  Main.cacheTTL (Main.loadConfig (os_Getenv envWithDSN)).1 = 3600000000000
  /\ Main.cacheTTL (Main.loadConfig (os_Getenv envWithParts)).1
     = 86400000000000
  /\ Main.cacheTTL (Main.loadConfig (os_Getenv envWithoutUser)).1
     = 86400000000000
  /\ run pg
       (expired
          (NewService (DBConn 0) (Client 0)
             (Main.cacheTTL
                (Main.loadConfig (os_Getenv {[ "CACHE_TTL" := "0" ]})).1)
             None)
          (later (- 1000 * hour) t0)) emptyWorld
     = (false, emptyWorld, []).
Proof.
  split; [| split; [| split]].
  - refine (proj1 (proj2 (proj2 (CACHE_TTL_setting pg
              (os_Getenv envWithDSN)))) 3600000000000 _ _);
      [vm_compute; discriminate | reflexivity].
  - refine (proj1 (proj2 (CACHE_TTL_setting pg (os_Getenv envWithParts)))
              (ForeignError "time: invalid duration") _); reflexivity.
  - refine (proj1 (CACHE_TTL_setting pg (os_Getenv envWithoutUser)) _);
      reflexivity.
  - refine (proj2 (proj2 (proj2 (CACHE_TTL_setting pg
              (os_Getenv {[ "CACHE_TTL" := "0" ]}))))
              (DBConn 0) (Client 0) None (later (- 1000 * hour) t0)
              emptyWorld _); vm_compute; discriminate.
Defined.

End MoreWitnesses.
